(** * pyAS4: the ebMS3 / AS4 [Messaging] header builder ([pyAS4/header.py])

    A shallow embedding of the [Header] class and of the part of
    [lxml.etree] it drives.  An lxml document is a mutable tree whose
    elements are reached through references: [self._xml] is the root and
    [self.pay_load_info] is a second reference to a node deep inside the
    same tree.  The embedding keeps that aliasing: a document is an arena
    of nodes, a reference is an index into the arena, and every method is
    a computation over the arena that may raise.

    A Python [str] is the string of its UTF-8 bytes.  lxml refuses the
    attribute values and texts that are not XML-compatible, with a
    [ValueError]; the class passes the strings it is given to lxml as
    they are, so that error is part of what its methods do. *)

From stdpp Require Import gmap strings list fin_maps.
From Stdlib.Strings Require Import Byte.

Open Scope string_scope.
Open Scope list_scope.
Open Scope nat_scope.

(** ** Python values and exceptions *)

(** A party identifier is annotated [str], and [__init__] tests it against
    [None]: it is [None] or a string. *)
Inductive pyval : Type :=
  | PyNone
  | PyStr (s : string).

#[global] Instance pyval_eq_dec : EqDecision pyval.
Proof. solve_decision. Defined.

Definition is_None (v : pyval) : bool :=
  match v with PyNone => true | PyStr _ => false end.

(** Truth value of [dict.get(key, None)]: [None] and the empty string are
    falsy. *)
Definition truthy (v : pyval) : bool :=
  match v with
  | PyNone => false
  | PyStr s => negb (String.eqb s "")
  end.

Inductive exn : Type :=
  | ValueError (msg : string)
  | KeyError (key : string).

Inductive result (A : Type) : Type :=
  | Ok (a : A)
  | Raise (e : exn).
Arguments Ok {A} a.
Arguments Raise {A} e.

(** ** Documents *)

(** A reference to an element: its index in the arena of its document. *)
Abbreviation ref := nat (only parsing).

Record Node : Type := mkNode {
  n_tag : string;                      (* Clark notation, {namespace}local *)
  n_nsmap : list (string * string);    (* prefixes declared on the element *)
  n_attrib : list (string * string);   (* in insertion order *)
  n_text : pyval;                      (* None until assigned *)
  n_children : list ref                (* in document order *)
}.

Abbreviation Document := (list Node) (only parsing).

Definition add_child (c : ref) (n : Node) : Node :=
  mkNode (n_tag n) (n_nsmap n) (n_attrib n) (n_text n) (n_children n ++ [c]).

Definition with_text (v : pyval) (n : Node) : Node :=
  mkNode (n_tag n) (n_nsmap n) (n_attrib n) v (n_children n).

(** ** Computations over a document that may raise *)

Definition M (A : Type) : Type := Document → result A * Document.

Definition ret {A} (a : A) : M A := λ d, (Ok a, d).

Definition bind {A B} (c : M A) (k : A → M B) : M B :=
  λ d, match c d with
       | (Ok a, d') => k a d'
       | (Raise e, d') => (Raise e, d')
       end.

Declare Scope py_scope.
Delimit Scope py_scope with py.
Notation "x <- c ;; k" := (bind c (λ x, k))
  (at level 100, c at next level, right associativity) : py_scope.
Notation "c ;;; k" := (bind c (λ _, k))
  (at level 100, right associativity) : py_scope.
Open Scope py_scope.

(** ** Module level *)

Definition _NS : list (string * string) :=
  [ ("query", "urn:oasis:names:tc:ebxml-regrep:xsd:query:4.0");
    ("rs", "urn:oasis:names:tc:ebxml-regrep:xsd:rs:4.0");
    ("rim", "urn:oasis:names:tc:ebxml-regrep:xsd:rim:4.0");
    ("xsi", "http://www.w3.org/2001/XMLSchema-instance");
    ("sdg", "http://data.europa.eu/sdg#");
    ("s12", "http://www.w3.org/2003/05/soap-envelope");
    ("eu", "http://eu.domibus.wsplugin/");
    ("eb3", "http://docs.oasis-open.org/ebxml-msg/ebms/v3.0/ns/core/200704/") ].

Fixpoint dict_get (k : string) (d : list (string * string)) : option string :=
  match d with
  | [] => None
  | (k', v) :: d' => if String.eqb k k' then Some v else dict_get k d'
  end.

(** [f"{{{_NS[ns]}}}{tag}"]; [_NS[ns]] raises [KeyError] on an unknown
    prefix. *)
Definition _nsmap (ns tag : string) : result string :=
  match dict_get ns _NS with
  | Some uri => Ok ("{" +:+ uri +:+ "}" +:+ tag)
  | None => Raise (KeyError ns)
  end.

Definition lift {A} (r : result A) : M A := λ d, (r, d).

(** ** Reading a document as a tree *)

#[local] Unset Elimination Schemes.
Inductive Tree : Type :=
  | Elem (tag : string) (nsmap : list (string * string))
         (attrib : list (string * string)) (text : pyval)
         (kids : list Tree).
#[local] Set Elimination Schemes.

Definition t_tag (t : Tree) : string := let 'Elem tg _ _ _ _ := t in tg.
Definition t_attrib (t : Tree) : list (string * string) :=
  let 'Elem _ _ a _ _ := t in a.
Definition t_text (t : Tree) : pyval := let 'Elem _ _ _ x _ := t in x.
Definition t_kids (t : Tree) : list Tree := let 'Elem _ _ _ _ k := t in k.

Fixpoint reify (fuel : nat) (d : Document) (r : ref) : option Tree :=
  match fuel with
  | 0 => None
  | S fuel' =>
    match d !! r with
    | None => None
    | Some n =>
      match mapM (reify fuel' d) (n_children n) with
      | None => None
      | Some kids =>
        Some (Elem (n_tag n) (n_nsmap n) (n_attrib n) (n_text n) kids)
      end
    end
  end.

(** A document of [length d] nodes has no path longer than that. *)
Definition view (d : Document) (r : ref) : option Tree :=
  reify (length d) d r.

(** ** Well-formed documents *)

(** lxml only attaches an element it has just created, so every child
    was created after its parent and every reference is to a node of the
    document. *)
Definition wf_doc (d : Document) : Prop :=
  ∀ i n, d !! i = Some n → Forall (λ c, i < c < length d) (n_children n).

Lemma reify_S (d : Document) f r :
  reify (S f) d r =
  match d !! r with
  | None => None
  | Some n =>
    match mapM (reify f d) (n_children n) with
    | None => None
    | Some kids => Some (Elem (n_tag n) (n_nsmap n) (n_attrib n) (n_text n) kids)
    end
  end.
Proof. reflexivity. Qed.

Lemma reify_mono (d : Document) f f' r t :
  reify f d r = Some t → f ≤ f' → reify f' d r = Some t.
Proof.
  revert f' r t. induction f as [|f IH]; intros f' r t; [discriminate|].
  intros H Hle. destruct f' as [|f']; [lia|]. rewrite reify_S in H |- *.
  destruct (d !! r) as [n|]; [|discriminate].
  destruct (mapM (reify f d) (n_children n)) as [ks|] eqn:E; [|discriminate].
  assert (mapM (reify f' d) (n_children n) = Some ks) as ->; [|done].
  apply mapM_Some. apply mapM_Some in E.
  eapply Forall2_impl; [exact E|]. intros c k Hc. apply IH; [done|lia].
Qed.

Lemma reify_total (d : Document) :
  wf_doc d → ∀ k r, r < length d → length d - r ≤ k → is_Some (reify k d r).
Proof.
  intros Hwf. induction k as [|k IH]; intros r Hr Hk; [lia|]. rewrite reify_S.
  destruct (lookup_lt_is_Some_2 d r Hr) as [n Hn]. rewrite Hn.
  assert (is_Some (mapM (reify k d) (n_children n))) as [ks ->]; [|by eexists].
  apply mapM_is_Some_2. eapply Forall_impl; [exact (Hwf r n Hn)|].
  intros c [? ?]. simpl. apply IH; lia.
Qed.

Lemma view_total (d : Document) r :
  wf_doc d → r < length d → is_Some (view d r).
Proof. intros. apply reify_total; [done|done|lia]. Qed.

Lemma reify_view (d : Document) f r t :
  wf_doc d → reify f d r = Some t → view d r = Some t.
Proof.
  intros Hwf H.
  assert (r < length d) as Hr.
  { destruct f; [discriminate|]. rewrite reify_S in H.
    destruct (d !! r) eqn:E; [|discriminate]. by eapply lookup_lt_Some. }
  destruct (view_total d r Hwf Hr) as [t' Ht']. rewrite Ht'. f_equal.
  unfold view in Ht'.
  pose proof (reify_mono d f (f `max` length d) r t H ltac:(lia)) as H1.
  pose proof (reify_mono d _ (f `max` length d) r t' Ht' ltac:(lia)) as H2.
  congruence.
Qed.

(** Two documents that agree on a set of references closed under
    [n_children] show the same tree at each of them. *)
Lemma reify_agree (P : ref → Prop) (d d' : Document) :
  (∀ i, P i → d' !! i = d !! i) →
  (∀ i n, P i → d !! i = Some n → Forall P (n_children n)) →
  ∀ f r, P r → reify f d' r = reify f d r.
Proof.
  intros Hag Hcl. induction f as [|f IH]; intros r Hr; [done|].
  rewrite !reify_S.
  rewrite (Hag r Hr). destruct (d !! r) as [n|] eqn:E; [|done].
  rewrite (Forall_mapM_ext (reify f d') (reify f d) (n_children n)); [done|].
  eapply Forall_impl; [exact (Hcl r n Hr E)|]. intros c Hc. by apply IH.
Qed.

(** ** The part of [lxml.etree] the class uses *)

(** The message of the [ValueError] lxml raises for a value it refuses. *)
Definition lxml_message : string :=
  "All strings must be XML compatible: Unicode or ASCII, no NULL bytes or control characters".

(** [etree.Element(tag, nsmap=...)]: a new document whose only node is its
    root.  The tags and attribute names of the class are literals that
    lxml accepts as names. *)
Definition etree_Element (tag : string) (nsmap : list (string * string))
    : Document * ref :=
  ([mkNode tag nsmap [] PyNone []], 0).

Section Lxml.

(** The strings lxml accepts as an attribute value or as a text.  Which
    they are is decided in lxml, not in this module: what follows holds
    for whatever they are. *)
Variable xml_compatible : string → bool.

Definition compatible (v : pyval) : bool :=
  match v with
  | PyNone => true
  | PyStr s => xml_compatible s
  end.

Arguments compatible : simpl nomatch.

Definition attrib_compatible (attrib : list (string * string)) : bool :=
  forallb (λ kv, xml_compatible kv.2) attrib.

(** [etree.SubElement(parent, tag, attrib)]: a new element with no text and
    no children, appended as the last child of [parent].  When lxml
    refuses an attribute value it removes the element it had attached and
    raises: the document is as it was.  A reference is only ever obtained
    from the document it points into, so [parent] is in range. *)
Definition etree_SubElement (parent : ref) (tag : string)
    (attrib : list (string * string)) : M ref :=
  λ d, if attrib_compatible attrib
       then let r := length d in
            (Ok r,
             alter (add_child r) parent d ++ [mkNode tag [] attrib PyNone []])
       else (Raise (ValueError lxml_message), d).

(** [element.text = v]: lxml removes the text the element has, then sets
    the new one, and raises if it refuses it. *)
Definition set_text (e : ref) (v : pyval) : M () :=
  λ d, if compatible v
       then (Ok (), alter (with_text v) e d)
       else (Raise (ValueError lxml_message), alter (with_text PyNone) e d).

(** ** The [Header] class *)

(** The values bound when the [def __init__] statement is executed, once,
    as the class body runs: [conversationid] is the string that the single
    call [str(uuid.uuid4())] returned then; the others are literals. *)
Record HeaderClass : Type := mkClass {
  default_conversationid : string
}.

(** Executing the class body: [uuid4 n] is the string the [n]-th call of
    [str(uuid.uuid4())] in the process returns, [calls] the number of
    calls made so far.  The [def] statement makes one call; [__init__]
    makes none. *)
Definition class_Header (uuid4 : nat → string) (calls : nat)
    : HeaderClass * nat :=
  (mkClass (uuid4 calls), S calls).

Definition default_service : string :=
  "http://docs.oasis-open.org/ebxml-msg/as4/200902/service".
Definition default_service_type : string :=
  "urn:oasis:names:tc:ebcore:ebrs:ebms:binding:1.0".
Definition default_action : string :=
  "http://docs.oasis-open.org/ebxml-msg/as4/200902/action".
Definition default_role : string :=
  "http://sdg.europa.eu/edelivery/gateway".

(** The arguments of a call [Header(...)]; an optional argument left out is
    [None] here. *)
Record Args : Type := mkArgs {
  a_c1_party_id : pyval;
  a_c1_party_id_type : string;
  a_c2_party_id : pyval;
  a_c2_party_id_type : string;
  a_c3_party_id : pyval;
  a_c3_party_id_type : string;
  a_c4_party_id : pyval;
  a_c4_party_id_type : string;
  a_conversationid : option string;
  a_service : option string;
  a_service_type : option string;
  a_action : option string;
  a_role : option string
}.

Record Header : Type := mkHeader {
  _xml : ref;
  c1_party_id : pyval;
  c1_party_id_type : string;
  c2_party_id : pyval;
  c2_party_id_type : string;
  c3_party_id : pyval;
  c3_party_id_type : string;
  c4_party_id : pyval;
  c4_party_id_type : string;
  service : string;
  service_type : string;
  action : string;
  conversationid : string;
  role : string;
  pay_load_info : ref
}.

Definition eb3 (tag : string) : M string := lift (_nsmap "eb3" tag).

(** [Header.__toxml]: reads [self._xml] and the data attributes, never
    [self.pay_load_info] (which [__init__] assigns from its result). *)
Definition __toxml (self : Header) : M ref :=
  tg <- eb3 "UserMessage" ;;
  user_message <- etree_SubElement (_xml self) tg [] ;;

  tg <- eb3 "PartyInfo" ;;
  party_info <- etree_SubElement user_message tg [] ;;
  tg <- eb3 "From" ;;
  froms <- etree_SubElement party_info tg [] ;;
  tg <- eb3 "PartyId" ;;
  e <- etree_SubElement froms tg [("type", c2_party_id_type self)] ;;
  set_text e (c2_party_id self) ;;;
  tg <- eb3 "Role" ;;
  e <- etree_SubElement froms tg [] ;;
  set_text e (PyStr (role self)) ;;;

  tg <- eb3 "To" ;;
  to <- etree_SubElement party_info tg [] ;;
  tg <- eb3 "PartyId" ;;
  e <- etree_SubElement to tg [("type", c3_party_id_type self)] ;;
  set_text e (c3_party_id self) ;;;
  tg <- eb3 "Role" ;;
  e <- etree_SubElement to tg [] ;;
  set_text e (PyStr (role self)) ;;;

  tg <- eb3 "CollaborationInfo" ;;
  collaboration_info <- etree_SubElement user_message tg [] ;;
  tg <- eb3 "Service" ;;
  e <- etree_SubElement collaboration_info tg
         [("type", "urn:oasis:names:tc:ebcore:ebrs:ebms:binding:1.0")] ;;
  set_text e (PyStr (service self)) ;;;
  tg <- eb3 "Action" ;;
  e <- etree_SubElement collaboration_info tg [] ;;
  set_text e (PyStr (action self)) ;;;
  tg <- eb3 "ConversationId" ;;
  e <- etree_SubElement collaboration_info tg [] ;;
  set_text e (PyStr (conversationid self)) ;;;

  tg <- eb3 "MessageProperties" ;;
  message_proportis <- etree_SubElement user_message tg [] ;;
  tg <- eb3 "Property" ;;
  e <- etree_SubElement message_proportis tg
         [("name", "originalSender"); ("type", c1_party_id_type self)] ;;
  set_text e (c1_party_id self) ;;;
  tg <- eb3 "Property" ;;
  e <- etree_SubElement message_proportis tg
         [("name", "finalRecipient"); ("type", c4_party_id_type self)] ;;
  set_text e (c4_party_id self) ;;;

  tg <- eb3 "PayloadInfo" ;;
  pay_load_info <- etree_SubElement user_message tg [] ;;

  ret pay_load_info.

Definition with_pay_load_info (self : Header) (r : ref) : Header :=
  mkHeader (_xml self)
    (c1_party_id self) (c1_party_id_type self)
    (c2_party_id self) (c2_party_id_type self)
    (c3_party_id self) (c3_party_id_type self)
    (c4_party_id self) (c4_party_id_type self)
    (service self) (service_type self) (action self)
    (conversationid self) (role self) r.

(** [Header(...)]: the bound arguments, the [None] test, then the object
    and its document.  A call that raises yields no object. *)
Definition __init__ (cls : HeaderClass) (a : Args)
    : result (Header * Document) :=
  let conversationid := default (default_conversationid cls) (a_conversationid a) in
  let service := default default_service (a_service a) in
  let service_type := default default_service_type (a_service_type a) in
  let action := default default_action (a_action a) in
  let role := default default_role (a_role a) in
  if existsb is_None
       [a_c1_party_id a; a_c2_party_id a; a_c3_party_id a; a_c4_party_id a]
  then Raise (ValueError "Parameters must not be None")
  else
    match _nsmap "eb3" "Messaging" with
    | Raise e => Raise e
    | Ok tg =>
      let '(doc, root) := etree_Element tg _NS in
      (* pay_load_info is not an attribute yet: the last field is a
         placeholder, which __toxml never reads *)
      let self :=
        mkHeader root
          (a_c1_party_id a) (a_c1_party_id_type a)
          (a_c2_party_id a) (a_c2_party_id_type a)
          (a_c3_party_id a) (a_c3_party_id_type a)
          (a_c4_party_id a) (a_c4_party_id_type a)
          service service_type action conversationid role root in
      match __toxml self doc with
      | (Ok pli, doc') => Ok (with_pay_load_info self pli, doc')
      | (Raise e, _) => Raise e
      end
    end.

(** [payload[key]] on a [dict[str, str]] *)
Definition getitem (payload : gmap string string) (key : string)
    : result string :=
  match payload !! key with
  | Some v => Ok v
  | None => Raise (KeyError key)
  end.

(** [payload.get(key, None)] *)
Definition get_or_None (payload : gmap string string) (key : string) : pyval :=
  match payload !! key with
  | Some v => PyStr v
  | None => PyNone
  end.

(** [for x in xs: body(x)]: the first exception ends the loop and leaves
    the document as the iterations so far made it. *)
Fixpoint for_each {A} (xs : list A) (body : A → M ()) : M () :=
  match xs with
  | [] => ret ()
  | x :: xs' => body x ;;; for_each xs' body
  end.

(** The body of the loop of [payload_append].  In an assignment
    [target.text = value] Python evaluates [value] before [target]. *)
Definition payload_append_body (self : Header) (payload : gmap string string)
    : M () :=
  tg <- eb3 "PartInfo" ;;
  href <- lift (getitem payload "href") ;;
  pl <- etree_SubElement (pay_load_info self) tg [("href", href)] ;;
  tg <- eb3 "PartProperties" ;;
  pp <- etree_SubElement pl tg [] ;;
  mimetype <- lift (getitem payload "mimetype") ;;
  tg <- eb3 "Property" ;;
  e <- etree_SubElement pp tg [("name", "MimeType")] ;;
  set_text e (PyStr mimetype) ;;;
  if truthy (get_or_None payload "CompressionType") then
    compression <- lift (getitem payload "CompressionType") ;;
    tg <- eb3 "Property" ;;
    e <- etree_SubElement pp tg [("name", "CompressionType")] ;;
    set_text e (PyStr compression)
  else ret ().

Definition payload_append (self : Header) (payloads : list (gmap string string))
    : M () :=
  for_each payloads (payload_append_body self).

Definition element (self : Header) : ref := _xml self.

(** [Header.xml]; [etree.tostring] is lxml's serializer, a function of the
    document and the element it is given. *)
Section Serialization.

Variable etree_tostring : Document → ref → bool → list byte.

Definition xml (self : Header) : M (list byte) :=
  λ d, (Ok (etree_tostring d (element self) true), d).

End Serialization.

(** ** What [__init__] builds *)

Definition eb3_uri : string :=
  "http://docs.oasis-open.org/ebxml-msg/ebms/v3.0/ns/core/200704/".

(** The qualified name of an [eb3] element, as [_nsmap] writes it. *)
Definition qn (tag : string) : string := "{" +:+ eb3_uri +:+ "}" +:+ tag.

Lemma eb3_qn tag (d : Document) : eb3 tag d = (Ok (qn tag), d).
Proof. reflexivity. Qed.

Definition service_type_attr : string :=
  "urn:oasis:names:tc:ebcore:ebrs:ebms:binding:1.0".

(** The arena after [__init__], node by node in order of creation. *)
Definition skeleton (self : Header) : Document :=
  [ mkNode (qn "Messaging") _NS [] PyNone [1];
    mkNode (qn "UserMessage") [] [] PyNone [2; 9; 13; 16];
    mkNode (qn "PartyInfo") [] [] PyNone [3; 6];
    mkNode (qn "From") [] [] PyNone [4; 5];
    mkNode (qn "PartyId") [] [("type", c2_party_id_type self)]
           (c2_party_id self) [];
    mkNode (qn "Role") [] [] (PyStr (role self)) [];
    mkNode (qn "To") [] [] PyNone [7; 8];
    mkNode (qn "PartyId") [] [("type", c3_party_id_type self)]
           (c3_party_id self) [];
    mkNode (qn "Role") [] [] (PyStr (role self)) [];
    mkNode (qn "CollaborationInfo") [] [] PyNone [10; 11; 12];
    mkNode (qn "Service") [] [("type", service_type_attr)]
           (PyStr (service self)) [];
    mkNode (qn "Action") [] [] (PyStr (action self)) [];
    mkNode (qn "ConversationId") [] [] (PyStr (conversationid self)) [];
    mkNode (qn "MessageProperties") [] [] PyNone [14; 15];
    mkNode (qn "Property") []
           [("name", "originalSender"); ("type", c1_party_id_type self)]
           (c1_party_id self) [];
    mkNode (qn "Property") []
           [("name", "finalRecipient"); ("type", c4_party_id_type self)]
           (c4_party_id self) [];
    mkNode (qn "PayloadInfo") [] [] PyNone [] ].

(** The object [__init__] leaves behind. *)
Definition new_header (cls : HeaderClass) (a : Args) : Header :=
  mkHeader 0
    (a_c1_party_id a) (a_c1_party_id_type a)
    (a_c2_party_id a) (a_c2_party_id_type a)
    (a_c3_party_id a) (a_c3_party_id_type a)
    (a_c4_party_id a) (a_c4_party_id_type a)
    (default default_service (a_service a))
    (default default_service_type (a_service_type a))
    (default default_action (a_action a))
    (default (default_conversationid cls) (a_conversationid a))
    (default default_role (a_role a))
    16.

Definition party_ids (a : Args) : list pyval :=
  [a_c1_party_id a; a_c2_party_id a; a_c3_party_id a; a_c4_party_id a].

(** The values [__toxml] hands to lxml, in the order in which it does:
    the attribute values of an element, then its text. *)
Definition init_values (self : Header) : list pyval :=
  [ PyStr (c2_party_id_type self); c2_party_id self; PyStr (role self);
    PyStr (c3_party_id_type self); c3_party_id self; PyStr (role self);
    PyStr service_type_attr; PyStr (service self);
    PyStr (action self); PyStr (conversationid self);
    PyStr "originalSender"; PyStr (c1_party_id_type self); c1_party_id self;
    PyStr "finalRecipient"; PyStr (c4_party_id_type self); c4_party_id self ].

Ltac chk t := destruct t; cbn; [|reflexivity].

Lemma init_eq cls a :
  __init__ cls a =
  if existsb is_None (party_ids a)
  then Raise (ValueError "Parameters must not be None")
  else if forallb compatible (init_values (new_header cls a))
       then Ok (new_header cls a, skeleton (new_header cls a))
       else Raise (ValueError lxml_message).
Proof.
  unfold __init__, party_ids.
  destruct (existsb is_None _); [reflexivity|].
  unfold __toxml, etree_SubElement, set_text, attrib_compatible,
    init_values, service_type_attr.
  cbn.
  chk (xml_compatible (a_c2_party_id_type a)).
  chk (compatible (a_c2_party_id a)).
  chk (xml_compatible (default default_role (a_role a))).
  chk (xml_compatible (a_c3_party_id_type a)).
  chk (compatible (a_c3_party_id a)).
  chk (xml_compatible "urn:oasis:names:tc:ebcore:ebrs:ebms:binding:1.0").
  chk (xml_compatible (default default_service (a_service a))).
  chk (xml_compatible (default default_action (a_action a))).
  chk (xml_compatible
         (default (default_conversationid cls) (a_conversationid a))).
  chk (xml_compatible "originalSender").
  chk (xml_compatible (a_c1_party_id_type a)).
  chk (compatible (a_c1_party_id a)).
  chk (xml_compatible "finalRecipient").
  chk (xml_compatible (a_c4_party_id_type a)).
  chk (compatible (a_c4_party_id a)).
  reflexivity.
Qed.

(** *** The tree the claims describe *)

Definition leaf (tag : string) (attrib : list (string * string))
    (text : pyval) : Tree :=
  Elem (qn tag) [] attrib text [].

Definition branch (tag : string) (kids : list Tree) : Tree :=
  Elem (qn tag) [] [] PyNone kids.

Definition party_info_tree (self : Header) : Tree :=
  branch "PartyInfo"
    [ branch "From"
        [ leaf "PartyId" [("type", c2_party_id_type self)] (c2_party_id self);
          leaf "Role" [] (PyStr (role self)) ];
      branch "To"
        [ leaf "PartyId" [("type", c3_party_id_type self)] (c3_party_id self);
          leaf "Role" [] (PyStr (role self)) ] ].

Definition collaboration_info_tree (self : Header) : Tree :=
  branch "CollaborationInfo"
    [ leaf "Service" [("type", service_type_attr)] (PyStr (service self));
      leaf "Action" [] (PyStr (action self));
      leaf "ConversationId" [] (PyStr (conversationid self)) ].

Definition message_properties_tree (self : Header) : Tree :=
  branch "MessageProperties"
    [ leaf "Property"
        [("name", "originalSender"); ("type", c1_party_id_type self)]
        (c1_party_id self);
      leaf "Property"
        [("name", "finalRecipient"); ("type", c4_party_id_type self)]
        (c4_party_id self) ].

(** The [Messaging] tree of a header whose [PayloadInfo] holds [parts]. *)
Definition messaging_tree (self : Header) (parts : list Tree) : Tree :=
  Elem (qn "Messaging") _NS [] PyNone
    [ branch "UserMessage"
        [ party_info_tree self;
          collaboration_info_tree self;
          message_properties_tree self;
          branch "PayloadInfo" parts ] ].

(** The [PartInfo] tree of a payload with the given [href], [mimetype]
    and [payload.get('CompressionType', None)]. *)
Definition part_tree (href mimetype : string) (compression : pyval) : Tree :=
  Elem (qn "PartInfo") [] [("href", href)] PyNone
    [ branch "PartProperties"
        (leaf "Property" [("name", "MimeType")] (PyStr mimetype)
         :: (if truthy compression
             then [leaf "Property" [("name", "CompressionType")] compression]
             else [])) ].

(** The [PartInfo] tree of a payload, when it has both required keys. *)
(** The [PartInfo] tree of a payload, when it has both required keys and
    lxml accepts its [href], its [mimetype] and, if it is truthy, its
    [CompressionType]. *)
Definition part_info_tree (payload : gmap string string) : option Tree :=
  match payload !! "href", payload !! "mimetype" with
  | Some href, Some mimetype =>
    let compression := get_or_None payload "CompressionType" in
    if xml_compatible href && xml_compatible mimetype
       && (negb (truthy compression) || compatible compression)
    then Some (part_tree href mimetype compression)
    else None
  | _, _ => None
  end.

(** What is left of a payload that has [href] and no [mimetype]. *)
Definition partial_part_tree (href : string) : Tree :=
  Elem (qn "PartInfo") [] [("href", href)] PyNone
    [ branch "PartProperties" [] ].

(** A [PartInfo] in general: its [href] and, for each [Property] under
    its [PartProperties], the name and the text. *)
Definition shape_tree (href : string) (props : list (string * pyval)) : Tree :=
  Elem (qn "PartInfo") [] [("href", href)] PyNone
    [ branch "PartProperties"
        ((λ p, leaf "Property" [("name", p.1)] p.2) <$> props) ].

Arguments qn : simpl never.

(** ** The invariant of a header and its document *)

(** The first sixteen nodes are those [__init__] made, node 16 is
    [PayloadInfo] with some children, and the document is well formed. *)
Record Inv (h : Header) (d : Document) : Prop := mkInv {
  inv_xml : _xml h = 0;
  inv_pli : pay_load_info h = 16;
  inv_skel : ∀ i, i < 16 → d !! i = skeleton h !! i;
  inv_pnode :
    ∃ kids, d !! 16 = Some (mkNode (qn "PayloadInfo") [] [] PyNone kids);
  inv_wf : wf_doc d
}.

Lemma wf_skeleton h : wf_doc (skeleton h).
Proof.
  intros i n.
  do 17 (destruct i as [|i]; [intros [= <-]; simpl; repeat constructor; lia|]).
  simpl. discriminate.
Qed.

Lemma Inv_init cls a : Inv (new_header cls a) (skeleton (new_header cls a)).
Proof.
  split; [done|done|done| |apply wf_skeleton]. by eexists.
Qed.

Ltac reify_skel Hs :=
  repeat (rewrite reify_S; rewrite Hs by lia; cbn -[reify]).

Lemma Inv_party_info h (d : Document) :
  Inv h d → reify 3 d 2 = Some (party_info_tree h).
Proof. intros [_ _ Hs _ _]. by reify_skel Hs. Qed.

Lemma Inv_collaboration_info h (d : Document) :
  Inv h d → reify 2 d 9 = Some (collaboration_info_tree h).
Proof. intros [_ _ Hs _ _]. by reify_skel Hs. Qed.

Lemma Inv_message_properties h (d : Document) :
  Inv h d → reify 2 d 13 = Some (message_properties_tree h).
Proof. intros [_ _ Hs _ _]. by reify_skel Hs. Qed.

Lemma Inv_length h (d : Document) : Inv h d → 16 < length d.
Proof. intros [_ _ _ [kids Hk] _]. by eapply lookup_lt_Some. Qed.

Lemma Inv_payload_info h (d : Document) :
  Inv h d → ∃ parts, view d 16 = Some (branch "PayloadInfo" parts).
Proof.
  intros HI. pose proof (Inv_length h d HI) as Hlen.
  destruct HI as [_ _ _ [kids Hk] Hwf].
  destruct (view_total d 16 Hwf Hlen) as [t Ht]. rewrite Ht.
  unfold view in Ht. destruct (length d) as [|f]; [lia|].
  rewrite reify_S, Hk in Ht. simpl in Ht.
  destruct (mapM (reify f d) kids) as [parts|]; [|discriminate].
  injection Ht as <-. by exists parts.
Qed.

Lemma Inv_view_root h (d : Document) parts :
  Inv h d →
  view d 16 = Some (branch "PayloadInfo" parts) →
  view d 0 = Some (messaging_tree h parts).
Proof.
  intros HI Hp. pose proof (Inv_length h d HI) as Hlen.
  set (f := length d).
  assert (reify f d 2 = Some (party_info_tree h)) as H2.
  { eapply reify_mono; [by apply Inv_party_info|unfold f; lia]. }
  assert (reify f d 9 = Some (collaboration_info_tree h)) as H9.
  { eapply reify_mono; [by apply Inv_collaboration_info|unfold f; lia]. }
  assert (reify f d 13 = Some (message_properties_tree h)) as H13.
  { eapply reify_mono; [by apply Inv_message_properties|unfold f; lia]. }
  destruct HI as [_ _ Hs _ Hwf].
  apply (reify_view d (S (S f))); [done|].
  rewrite reify_S, (Hs 0) by lia. cbn -[reify].
  rewrite reify_S, (Hs 1) by lia. cbn -[reify].
  unfold view in Hp. fold f in Hp. by rewrite H2, H9, H13, Hp.
Qed.

Lemma messaging_tree_inj h parts parts' :
  messaging_tree h parts = messaging_tree h parts' → parts = parts'.
Proof. intros H. by injection H. Qed.

Lemma Inv_view_payload_info h (d : Document) parts :
  Inv h d →
  view d 0 = Some (messaging_tree h parts) →
  view d 16 = Some (branch "PayloadInfo" parts).
Proof.
  intros HI H0. destruct (Inv_payload_info h d HI) as [parts' Hp].
  pose proof (Inv_view_root h d parts' HI Hp) as H0'.
  rewrite H0 in H0'. injection H0' as ->. done.
Qed.

(** ** One iteration of the loop of [payload_append] *)

Lemma lookup_tail {A} (X L : list A) n i k :
  length X = n → i = n + k → (X ++ L) !! i = L !! k.
Proof.
  intros <- ->. rewrite lookup_app_r by lia. f_equal. lia.
Qed.

Lemma SubElement_tail (X L : Document) n parent k tag attrib :
  length X = n → parent = n + k → attrib_compatible attrib = true →
  etree_SubElement parent tag attrib (X ++ L) =
  (Ok (n + length L),
   X ++ (alter (add_child (n + length L)) k L
         ++ [mkNode tag [] attrib PyNone []])).
Proof.
  intros <- -> Hc. unfold etree_SubElement. rewrite Hc.
  by rewrite length_app, alter_app_r, <- app_assoc.
Qed.

Lemma SubElement_refused (d : Document) parent tag attrib :
  attrib_compatible attrib = false →
  etree_SubElement parent tag attrib d = (Raise (ValueError lxml_message), d).
Proof. intros Hc. unfold etree_SubElement. by rewrite Hc. Qed.

Lemma set_text_tail (X L : Document) n e k v :
  length X = n → e = n + k → compatible v = true →
  set_text e v (X ++ L) = (Ok (), X ++ alter (with_text v) k L).
Proof. intros <- -> Hc. unfold set_text. by rewrite Hc, alter_app_r. Qed.

Lemma set_text_refused_tail (X L : Document) n e k v :
  length X = n → e = n + k → compatible v = false →
  set_text e v (X ++ L) =
  (Raise (ValueError lxml_message), X ++ alter (with_text PyNone) k L).
Proof. intros <- -> Hc. unfold set_text. by rewrite Hc, alter_app_r. Qed.

(** How one iteration ends, and what it has attached by then: nothing,
    or a [PartInfo] with its [href] and the properties made so far. *)
Definition body_outcome (payload : gmap string string)
    : option (string * list (string * pyval)) * result () :=
  match payload !! "href" with
  | None => (None, Raise (KeyError "href"))
  | Some href =>
    if attrib_compatible [("href", href)] then
      match payload !! "mimetype" with
      | None => (Some (href, []), Raise (KeyError "mimetype"))
      | Some mimetype =>
        if attrib_compatible [("name", "MimeType")] then
          if compatible (PyStr mimetype) then
            let compression := get_or_None payload "CompressionType" in
            if truthy compression then
              if attrib_compatible [("name", "CompressionType")] then
                if compatible compression then
                  (Some (href, [("MimeType", PyStr mimetype);
                                ("CompressionType", compression)]),
                   Ok ())
                else
                  (Some (href, [("MimeType", PyStr mimetype);
                                ("CompressionType", PyNone)]),
                   Raise (ValueError lxml_message))
              else
                (Some (href, [("MimeType", PyStr mimetype)]),
                 Raise (ValueError lxml_message))
            else (Some (href, [("MimeType", PyStr mimetype)]), Ok ())
          else
            (Some (href, [("MimeType", PyNone)]),
             Raise (ValueError lxml_message))
        else (Some (href, []), Raise (ValueError lxml_message))
      end
    else (None, Raise (ValueError lxml_message))
  end.

(** The nodes of a [PartInfo] whose first node is at reference [n]. *)
Definition shape_nodes (n : nat) (href : string)
    (props : list (string * pyval)) : list Node :=
  mkNode (qn "PartInfo") [] [("href", href)] PyNone [n + 1]
  :: mkNode (qn "PartProperties") [] [] PyNone
       (match props with
        | [] => []
        | [_] => [n + 2]
        | _ => [n + 2; n + 3]
        end)
  :: ((λ p, mkNode (qn "Property") [] [("name", p.1)] p.2 []) <$> props).

Definition outcome_nodes (n : nat)
    (o : option (string * list (string * pyval))) : list Node :=
  match o with
  | None => []
  | Some (href, props) => shape_nodes n href props
  end.

Definition outcome_trees (o : option (string * list (string * pyval)))
    : list Tree :=
  match o with
  | None => []
  | Some (href, props) => [shape_tree href props]
  end.

(** The document with new nodes attached under [p], if there are any. *)
Definition graft (p : ref) (d : Document) (ns : list Node) : Document :=
  match ns with
  | [] => d
  | _ => alter (add_child (length d)) p d ++ ns
  end.

Ltac step := cbn -[qn eb3 etree_SubElement set_text attrib_compatible compatible].

Lemma body_eq h (payload : gmap string string) (d : Document) :
  payload_append_body h payload d =
  (snd (body_outcome payload),
   graft (pay_load_info h) d
     (outcome_nodes (length d) (fst (body_outcome payload)))).
Proof.
  unfold payload_append_body, body_outcome, bind. rewrite eb3_qn.
  unfold lift, getitem.
  destruct (payload !! "href") as [href|]; [|done].
  destruct (attrib_compatible [("href", href)]) eqn:Ehref.
  2:{ by rewrite SubElement_refused. }
  set (n := length d).
  assert (etree_SubElement (pay_load_info h) (qn "PartInfo") [("href", href)] d
          = (Ok n, alter (add_child n) (pay_load_info h) d
                   ++ [mkNode (qn "PartInfo") [] [("href", href)] PyNone []]))
    as ->.
  { unfold etree_SubElement. by rewrite Ehref. }
  set (X := alter (add_child n) (pay_load_info h) d).
  assert (length X = n) as HX by apply length_alter. step.
  rewrite eb3_qn.
  rewrite (SubElement_tail X _ n n 0) by (done || lia). step.
  destruct (payload !! "mimetype") as [mimetype|]; [|done].
  rewrite eb3_qn.
  destruct (attrib_compatible [("name", "MimeType")]) eqn:Emime.
  2:{ by rewrite SubElement_refused. }
  rewrite (SubElement_tail X _ n (n + 1) 1) by (done || lia). step.
  destruct (compatible (PyStr mimetype)) eqn:Em.
  2:{ by rewrite (set_text_refused_tail X _ n (n + 2) 2) by (done || lia). }
  rewrite (set_text_tail X _ n (n + 2) 2) by (done || lia). step.
  unfold get_or_None.
  destruct (payload !! "CompressionType") as [c|]; step; [|done].
  destruct (negb (c =? "")%string); step; [|done].
  rewrite eb3_qn.
  destruct (attrib_compatible [("name", "CompressionType")]) eqn:Ecomp.
  2:{ by rewrite SubElement_refused. }
  rewrite (SubElement_tail X _ n (n + 1) 1) by (done || lia). step.
  destruct (compatible (PyStr c)) eqn:Ec.
  2:{ by rewrite (set_text_refused_tail X _ n (n + 3) 3) by (done || lia). }
  by rewrite (set_text_tail X _ n (n + 3) 3) by (done || lia).
Qed.

(** *** Attaching a new subtree under [PayloadInfo] *)

Lemma Forall2_Forall_impl {A B} (P : A → Prop) (R R' : A → B → Prop) l k :
  Forall P l → Forall2 R l k → (∀ x y, P x → R x y → R' x y) →
  Forall2 R' l k.
Proof.
  intros HP HR Himp. induction HR as [|x y l k Hxy HR IH]; [constructor|].
  inversion HP; subst. constructor; auto.
Qed.

Lemma view_children (d : Document) r t :
  view d r = Some t →
  ∃ g n, d !! r = Some n ∧ mapM (reify g d) (n_children n) = Some (t_kids t).
Proof.
  unfold view. destruct (length d) as [|g]; [discriminate|].
  rewrite reify_S. destruct (d !! r) as [n|]; [|discriminate].
  destruct (mapM (reify g d) (n_children n)) as [ks|] eqn:E; [|discriminate].
  intros [= <-]. by exists g, n.
Qed.

(** [ns] are new nodes laid out from reference [length d] on, whose first
    node is the root of a tree [t]; the parent's reference is added to
    [PayloadInfo]. *)
Lemma Inv_graft h (d : Document) (ns : list Node) t parts f :
  Inv h d →
  view d 16 = Some (branch "PayloadInfo" parts) →
  (∀ k m, ns !! k = Some m →
     Forall (λ c, length d + k < c < length d + length ns) (n_children m)) →
  (∀ X : Document, length X = length d →
     reify f (X ++ ns) (length d) = Some t) →
  Inv h (alter (add_child (length d)) (pay_load_info h) d ++ ns) ∧
  view (alter (add_child (length d)) (pay_load_info h) d ++ ns) 16
  = Some (branch "PayloadInfo" (parts ++ [t])).
Proof.
  intros HI Hp Hns Ht. pose proof (Inv_length h d HI) as Hlen.
  destruct HI as [Hx Hpl Hs [kids Hk] Hwf]. rewrite Hpl.
  set (n := length d) in *.
  set (X := alter (add_child n) 16 d).
  assert (length X = n) as HX by apply length_alter.
  set (d' := X ++ ns).
  assert (∀ i, i < n → i ≠ 16 → d' !! i = d !! i) as Hlow.
  { intros i Hi Hne. unfold d'. rewrite lookup_app_l by lia.
    unfold X. by rewrite list_lookup_alter_ne. }
  assert (d' !! 16 = Some (mkNode (qn "PayloadInfo") [] [] PyNone (kids ++ [n])))
    as H16.
  { unfold d'. rewrite lookup_app_l by lia.
    unfold X. by rewrite list_lookup_alter_eq, Hk. }
  assert (0 < length ns) as Hnz.
  { specialize (Ht X HX). destruct f as [|f']; [discriminate|].
    rewrite reify_S in Ht. destruct ((X ++ ns) !! n) as [m|] eqn:E; [|discriminate].
    apply lookup_lt_Some in E. rewrite length_app in E. lia. }
  assert (Forall (λ c, 16 < c < n) kids) as Hkids by exact (Hwf 16 _ Hk).
  assert (wf_doc d') as Hwf'.
  { intros i m Hi. unfold d' in *. rewrite length_app, HX.
    destruct (decide (i < n)) as [Hlt|Hge].
    - destruct (decide (i = 16)) as [->|Hne].
      + rewrite H16 in Hi. injection Hi as <-. simpl. apply Forall_app. split.
        * eapply Forall_impl; [exact Hkids|]. simpl. lia.
        * repeat constructor; lia.
      + rewrite (Hlow i Hlt Hne) in Hi.
        eapply Forall_impl; [exact (Hwf i m Hi)|]. simpl. fold n. lia.
    - rewrite (lookup_tail X ns n i (i - n)) in Hi by (done || lia).
      eapply Forall_impl; [exact (Hns _ _ Hi)|]. simpl. lia. }
  split.
  - split; [done|done| |by eexists|done].
    intros i Hi. rewrite Hlow by lia. by apply Hs.
  - destruct (view_children d 16 _ Hp) as (g & m & Hm1 & Hm).
    rewrite Hk in Hm1. injection Hm1 as <-. simpl in Hm.
    apply mapM_Some in Hm.
    apply (reify_view d' (S (f `max` g))); [done|].
    rewrite reify_S, H16. simpl.
    assert (mapM (reify (f `max` g) d') (kids ++ [n]) = Some (parts ++ [t]))
      as ->; [|done].
    apply mapM_Some, Forall2_app.
    + eapply Forall2_Forall_impl; [exact Hkids|exact Hm|].
      intros c k Hc Hck. simpl in *.
      rewrite (reify_agree (λ i, 16 < i < n) d d'); [| | |done].
      * eapply reify_mono; [exact Hck|lia].
      * intros i Hi. apply Hlow; lia.
      * intros i m Hi Him. eapply Forall_impl; [exact (Hwf i m Him)|].
        simpl. fold n. lia.
    + repeat constructor. eapply reify_mono; [exact (Ht X HX)|lia].
Qed.

(** *** One iteration, seen on the tree *)

Lemma body_outcome_props (payload : gmap string string) href props :
  fst (body_outcome payload) = Some (href, props) → length props ≤ 2.
Proof.
  unfold body_outcome.
  repeat (case_match; simpl; try discriminate); intros [= <- <-]; simpl; lia.
Qed.

Lemma shape_nodes_wf n href props k node :
  length props ≤ 2 →
  shape_nodes n href props !! k = Some node →
  Forall (λ c, n + k < c < n + length (shape_nodes n href props))
         (n_children node).
Proof.
  intros Hl. destruct props as [|a [|b [|c props]]]; simpl in Hl; [| | |lia];
    unfold shape_nodes; simpl;
    destruct k as [|[|[|[|k]]]]; simpl; intros [= <-];
    repeat constructor; simpl; lia.
Qed.

Ltac reify_tail X n :=
  repeat (rewrite reify_S;
          first [ rewrite (lookup_tail X _ n _ 0) by (done || lia)
                | rewrite (lookup_tail X _ n _ 1) by (done || lia)
                | rewrite (lookup_tail X _ n _ 2) by (done || lia)
                | rewrite (lookup_tail X _ n _ 3) by (done || lia) ];
          cbn -[reify]).

Lemma shape_nodes_reify (X : Document) n href props :
  length props ≤ 2 →
  length X = n →
  reify 3 (X ++ shape_nodes n href props) n = Some (shape_tree href props).
Proof.
  intros Hl HX. unfold shape_nodes, shape_tree.
  destruct props as [|a [|b [|c props]]]; simpl in Hl; [| | |lia];
    simpl fmap; by reify_tail X n.
Qed.

Lemma body_view h (payload : gmap string string) (d : Document) parts :
  Inv h d →
  view d 16 = Some (branch "PayloadInfo" parts) →
  ∃ d', payload_append_body h payload d = (snd (body_outcome payload), d') ∧
        Inv h d' ∧
        view d' 16 =
        Some (branch "PayloadInfo"
                (parts ++ outcome_trees (fst (body_outcome payload)))).
Proof.
  intros HI Hp. rewrite body_eq.
  pose proof (body_outcome_props payload) as Hl.
  destruct (fst (body_outcome payload)) as [[href props]|]; simpl.
  - eexists. split; [done|].
    eapply (Inv_graft _ _ _ _ _ 3); [done|done| |].
    + intros k node. apply shape_nodes_wf. by eapply Hl.
    + intros X HX. apply shape_nodes_reify; [by eapply Hl|done].
  - exists d. by rewrite app_nil_r.
Qed.

(** ** The whole loop, seen on the tree *)

(** The trees one call of [payload_append] leaves under [PayloadInfo], and
    how the call ends. *)
Fixpoint append_outcome (payloads : list (gmap string string))
    : list Tree * result () :=
  match payloads with
  | [] => ([], Ok ())
  | payload :: rest =>
    let ts := outcome_trees (fst (body_outcome payload)) in
    match snd (body_outcome payload) with
    | Ok _ => let '(ts', r) := append_outcome rest in (ts ++ ts', r)
    | Raise e => (ts, Raise e)
    end
  end.

Lemma payload_append_outcome h payloads (d : Document) parts :
  Inv h d →
  view d 16 = Some (branch "PayloadInfo" parts) →
  ∃ d', payload_append h payloads d = (snd (append_outcome payloads), d') ∧
        Inv h d' ∧
        view d' 16 =
        Some (branch "PayloadInfo" (parts ++ fst (append_outcome payloads))).
Proof.
  revert d parts. induction payloads as [|payload rest IH]; intros d parts HI Hp.
  - exists d. simpl. by rewrite app_nil_r.
  - unfold payload_append. simpl. unfold bind.
    destruct (body_view h payload d parts HI Hp) as (d1 & -> & HI1 & Hp1).
    destruct (snd (body_outcome payload)) as [[]|e]; [|by exists d1].
    destruct (IH d1 _ HI1 Hp1) as (d' & Hrun & HI' & Hp').
    exists d'. fold (payload_append h rest). rewrite Hrun.
    destruct (append_outcome rest) as [ts r]. simpl in *.
    rewrite <- app_assoc in Hp'. done.
Qed.

(** The outcome of a call does not depend on the header or on the
    document. *)
Lemma payload_append_fst h payloads (d : list Node) :
  fst (payload_append h payloads d) = snd (append_outcome payloads).
Proof.
  revert d. induction payloads as [|payload rest IH]; intros d; [done|].
  unfold payload_append. simpl. unfold bind. rewrite body_eq.
  destruct (snd (body_outcome payload)) as [[]|e]; [|done].
  fold (payload_append h rest). rewrite IH.
  by destruct (append_outcome rest).
Qed.

Lemma for_each_app {A} (xs ys : list A) (body : A → M ()) (d : Document) :
  for_each (xs ++ ys) body d =
  match for_each xs body d with
  | (Ok _, d1) => for_each ys body d1
  | (Raise e, d1) => (Raise e, d1)
  end.
Proof.
  revert d. induction xs as [|x xs IH]; intros d; [done|].
  simpl. unfold bind. destruct (body x d) as [[[]|e] d1]; [|done]. apply IH.
Qed.

(** *** When an iteration returns *)

Lemma attrib_compatible_1 k v : attrib_compatible [(k, v)] = xml_compatible v.
Proof. unfold attrib_compatible. simpl. apply andb_true_r. Qed.

Ltac crush :=
  cbn -[qn part_tree shape_tree truthy get_or_None xml_compatible
       attrib_compatible]; rewrite ?attrib_compatible_1.

Lemma part_tree_shape href mimetype compression :
  part_tree href mimetype compression =
  shape_tree href
    (("MimeType", PyStr mimetype)
     :: if truthy compression then [("CompressionType", compression)] else []).
Proof. unfold part_tree, shape_tree. by destruct (truthy compression). Qed.

(** An iteration that returns has made the whole [PartInfo]: the payload
    has its keys and lxml accepted its values. *)
Lemma body_outcome_Ok (payload : gmap string string) :
  snd (body_outcome payload) = Ok () →
  ∃ t, part_info_tree payload = Some t ∧
       outcome_trees (fst (body_outcome payload)) = [t].
Proof.
  unfold body_outcome, part_info_tree. rewrite !attrib_compatible_1.
  destruct (payload !! "href") as [href|]; crush; [|discriminate].
  destruct (xml_compatible href); crush; [|discriminate].
  destruct (payload !! "mimetype") as [mimetype|]; crush; [|discriminate].
  destruct (xml_compatible "MimeType"); crush; [|discriminate].
  destruct (xml_compatible mimetype); crush;
    [|discriminate].
  destruct (truthy (get_or_None payload "CompressionType")) eqn:Et;
    crush.
  - destruct (xml_compatible "CompressionType"); crush; [|discriminate].
    destruct (compatible (get_or_None payload "CompressionType")); crush;
      [|discriminate].
    intros _. eexists. split; [reflexivity|]. cbn [fst outcome_trees].
    by rewrite part_tree_shape, Et.
  - intros _. eexists. split; [reflexivity|]. cbn [fst outcome_trees].
    by rewrite part_tree_shape, Et.
Qed.

Lemma append_outcome_Ok (payloads : list (gmap string string)) :
  snd (append_outcome payloads) = Ok () →
  mapM part_info_tree payloads = Some (fst (append_outcome payloads)).
Proof.
  induction payloads as [|payload rest IH]; [done|]. simpl.
  destruct (snd (body_outcome payload)) as [[]|e] eqn:E; [|discriminate].
  destruct (body_outcome_Ok payload E) as (t & Ht & ->).
  destruct (append_outcome rest) as [ts r]. simpl in *. intros Hr.
  rewrite Ht. simpl. by rewrite (IH Hr).
Qed.

Lemma append_outcome_length (payloads : list (gmap string string)) :
  snd (append_outcome payloads) = Ok () →
  length (fst (append_outcome payloads)) = length payloads.
Proof.
  intros H. apply append_outcome_Ok, length_mapM in H. by rewrite H.
Qed.

(** The call stops at the first iteration that raises. *)
Lemma append_outcome_app (pre post : list (gmap string string)) :
  append_outcome (pre ++ post) =
  match snd (append_outcome pre) with
  | Ok _ => (fst (append_outcome pre) ++ fst (append_outcome post),
             snd (append_outcome post))
  | Raise e => (fst (append_outcome pre), Raise e)
  end.
Proof.
  induction pre as [|p pre IH]; simpl; [by destruct (append_outcome post)|].
  destruct (snd (body_outcome p)) as [[]|e]; [|done].
  rewrite IH. destruct (append_outcome pre) as [ts [[]|e]]; simpl; [|done].
  by rewrite app_assoc.
Qed.

Lemma append_outcome_raises (payloads : list (gmap string string)) e :
  snd (append_outcome payloads) = Raise e →
  e = KeyError "href" ∨ e = KeyError "mimetype" ∨
  e = ValueError lxml_message.
Proof.
  induction payloads as [|payload rest IH]; simpl; [discriminate|].
  destruct (snd (body_outcome payload)) as [[]|e'] eqn:E.
  - destruct (append_outcome rest) as [ts r]. simpl in *. exact IH.
  - intros [= <-]. revert E. unfold body_outcome.
    repeat (case_match; simpl; try discriminate); intros [= <-]; auto.
Qed.

(** A list with a payload that lacks [mimetype] never lets the call
    return. *)
Lemma append_outcome_missing_mimetype (payloads : list (gmap string string)) :
  Exists (λ p, p !! "mimetype" = None) payloads →
  ∃ e, snd (append_outcome payloads) = Raise e.
Proof.
  induction payloads as [|payload rest IH]; intros HE; [by inversion HE|].
  simpl. destruct (snd (body_outcome payload)) as [[]|e] eqn:E; [|by eexists].
  apply Exists_cons in HE as [Hm|HE].
  - exfalso. revert E. unfold body_outcome. rewrite Hm.
    repeat (case_match; simpl; try discriminate).
  - destruct (IH HE) as [e He]. destruct (append_outcome rest) as [ts r].
    simpl in *. by exists e.
Qed.


(** ** The states a header goes through *)

(** A header and its document after [__init__] and any number of calls of
    [payload_append], whether they returned or raised. *)
Inductive reachable (cls : HeaderClass) (a : Args)
    : Header → Document → Prop :=
  | reach_init h d :
      __init__ cls a = Ok (h, d) → reachable cls a h d
  | reach_append h d payloads r d' :
      reachable cls a h d →
      payload_append h payloads d = (r, d') →
      reachable cls a h d'.

Lemma init_Ok_compatible cls a h (d : Document) :
  __init__ cls a = Ok (h, d) →
  forallb compatible (init_values (new_header cls a)) = true.
Proof.
  rewrite init_eq. destruct (existsb is_None (party_ids a)); [discriminate|].
  by destruct (forallb compatible _).
Qed.

Lemma init_Ok cls a h (d : Document) :
  __init__ cls a = Ok (h, d) →
  h = new_header cls a ∧ d = skeleton (new_header cls a) ∧
  existsb is_None (party_ids a) = false.
Proof.
  rewrite init_eq. destruct (existsb is_None (party_ids a)); [discriminate|].
  destruct (forallb compatible _); [|discriminate].
  by intros [= <- <-].
Qed.

Lemma reachable_Inv cls a h (d : Document) : reachable cls a h d → Inv h d.
Proof.
  induction 1 as [h d H|h d payloads r d' _ IH H].
  - apply init_Ok in H as (-> & -> & _). apply Inv_init.
  - destruct (Inv_payload_info h d IH) as [parts Hp].
    destruct (payload_append_outcome h payloads d parts IH Hp)
      as (d1 & Hrun & HI & _).
    rewrite Hrun in H. by injection H as _ <-.
Qed.

Lemma reachable_header cls a h (d : Document) :
  reachable cls a h d → h = new_header cls a.
Proof.
  induction 1 as [h d H|]; [|done]. by apply init_Ok in H as (-> & _).
Qed.

(** ** Reading a tree along a path of child positions *)

Fixpoint subtree (path : list nat) (t : Tree) : option Tree :=
  match path with
  | [] => Some t
  | i :: path' =>
    match t_kids t !! i with
    | Some k => subtree path' k
    | None => None
    end
  end.

(** The number of children of [PayloadInfo]. *)
Definition payload_count (self : Header) (d : Document) : option nat :=
  match d !! pay_load_info self with
  | Some n => Some (length (n_children n))
  | None => None
  end.

Lemma view_count (d : Document) r t :
  view d r = Some t →
  ∃ n, d !! r = Some n ∧ length (n_children n) = length (t_kids t).
Proof.
  intros H. destruct (view_children d r t H) as (g & n & Hn & Hm).
  exists n. split; [done|]. by eapply length_mapM.
Qed.

Lemma payload_count_view h (d : Document) parts :
  view d (pay_load_info h) = Some (branch "PayloadInfo" parts) →
  payload_count h d = Some (length parts).
Proof.
  intros H. destruct (view_count d _ _ H) as (n & Hn & Hl).
  unfold payload_count. rewrite Hn. by rewrite Hl.
Qed.

(** [payload.get(key, None)] is truthy exactly when the key is present
    with a non-empty value. *)
Lemma truthy_get_or_None (payload : gmap string string) key :
  truthy (get_or_None payload key) = true ↔
  ∃ v, payload !! key = Some v ∧ v ≠ "".
Proof.
  unfold get_or_None. destruct (payload !! key) as [v|]; simpl.
  - rewrite negb_true_iff, String.eqb_neq. split.
    + intros H. by exists v.
    + by intros (w & [= ->] & H).
  - split; [discriminate|]. by intros (w & H & _).
Qed.

Lemma reachable_payload_info cls a h (d : list Node) :
  reachable cls a h d →
  pay_load_info h = 16 ∧ element h = 0 ∧
  ∃ parts, view d 16 = Some (branch "PayloadInfo" parts).
Proof.
  intros HR. pose proof (reachable_Inv cls a h d HR) as HI.
  split; [apply HI|]. split; [apply HI|]. by eapply Inv_payload_info.
Qed.

Lemma init_view cls a h (d : list Node) :
  __init__ cls a = Ok (h, d) →
  view d (element h) = Some (messaging_tree h []).
Proof.
  intros H. apply init_Ok in H as (-> & -> & _).
  apply Inv_view_root; [apply Inv_init|]. reflexivity.
Qed.

(** ** Construction *)

(** C1. A construction that succeeds leaves the object [new_header] and a
    document whose tree, read from the root [self._xml], is exactly
    [messaging_tree] with no part: Messaging, its one child UserMessage,
    and under it, in this order, PartyInfo (From with PartyId of text
    c2_party_id and type c2_party_id_type, and Role; To with PartyId of
    text c3_party_id and type c3_party_id_type, and Role), CollaborationInfo
    (Service, Action, ConversationId), MessageProperties (Property
    originalSender of type c1_party_id_type and text c1_party_id, Property
    finalRecipient of type c4_party_id_type and text c4_party_id) and a
    PayloadInfo without children. *)
Theorem init_builds_messaging_tree cls a h (d : list Node) :
  __init__ cls a = Ok (h, d) →
  h = new_header cls a ∧
  view d (element h) = Some (messaging_tree (new_header cls a) []).
Proof.
  intros H. apply init_Ok in H as (-> & -> & _). split; [done|].
  apply Inv_view_root; [apply Inv_init|]. reflexivity.
Qed.

(** C5, on the code.  The default of [conversationid] is the one string
    drawn when the class was defined: whatever [uuid4] returns from call
    to call, two constructions that leave the argument out get the same
    [conversationid], and both write it into their [ConversationId]
    element. *)
Theorem default_conversationid_shared
    uuid4 calls a1 a2 h1 h2 (d1 d2 : list Node) :
  let cls := fst (class_Header uuid4 calls) in
  a_conversationid a1 = None →
  a_conversationid a2 = None →
  __init__ cls a1 = Ok (h1, d1) →
  __init__ cls a2 = Ok (h2, d2) →
  conversationid h1 = uuid4 calls ∧
  conversationid h2 = conversationid h1 ∧
  d1 !! 12 = Some (mkNode (qn "ConversationId") [] []
                          (PyStr (uuid4 calls)) []) ∧
  d2 !! 12 = d1 !! 12.
Proof.
  intros cls E1 E2 H1 H2.
  apply init_Ok in H1 as (-> & -> & _). apply init_Ok in H2 as (-> & -> & _).
  simpl. by rewrite E1, E2.
Qed.

(** The arguments with [service_type] replaced. *)
Definition with_service_type (a : Args) (st : option string) : Args :=
  mkArgs (a_c1_party_id a) (a_c1_party_id_type a)
         (a_c2_party_id a) (a_c2_party_id_type a)
         (a_c3_party_id a) (a_c3_party_id_type a)
         (a_c4_party_id a) (a_c4_party_id_type a)
         (a_conversationid a) (a_service a) st (a_action a) (a_role a).

(** C6. The [Service] element, first child of [CollaborationInfo], has
    the one attribute [type] with the literal value, and its text is
    [service]; the same call with any other [service_type], or none,
    builds the same document, and [payload_append] on the object it
    returns does what it does on this one. *)
Theorem service_type_is_ignored cls a st h (d : list Node) :
  __init__ cls a = Ok (h, d) →
  (∃ t, view d (element h) = Some t ∧
        subtree [0; 1; 0] t =
        Some (leaf "Service"
                [("type", "urn:oasis:names:tc:ebcore:ebrs:ebms:binding:1.0")]
                (PyStr (service h)))) ∧
  (∃ h', __init__ cls (with_service_type a st) = Ok (h', d) ∧
         service_type h' = default default_service_type st ∧
         ∀ payloads d1,
           payload_append h' payloads d1 = payload_append h payloads d1).
Proof.
  intros H. pose proof H as H0. apply init_view in H0.
  pose proof (init_Ok_compatible cls a h d H) as Hc.
  apply init_Ok in H as (-> & -> & Hex). split.
  - eexists. split; [exact H0|reflexivity].
  - exists (new_header cls (with_service_type a st)).
    rewrite init_eq.
    change (party_ids (with_service_type a st)) with (party_ids a).
    rewrite Hex.
    change (init_values (new_header cls (with_service_type a st)))
      with (init_values (new_header cls a)).
    rewrite Hc.
    split; [reflexivity|]. split; [reflexivity|]. reflexivity.
Qed.

(** ** Appending payloads *)

(** A payload the loop goes through: it has [href] and [mimetype], and
    lxml accepts them and, if it is truthy, [CompressionType]. *)
Definition accepted_payload (payload : gmap string string) : Prop :=
  ∃ href mimetype,
    payload !! "href" = Some href ∧ payload !! "mimetype" = Some mimetype ∧
    xml_compatible href = true ∧ xml_compatible mimetype = true ∧
    (truthy (get_or_None payload "CompressionType") = true →
     compatible (get_or_None payload "CompressionType") = true).

(** [mapM part_info_tree payloads = Some new] says that every payload is
    of that kind, [new] being their trees in order. *)
Lemma part_info_tree_is_Some (payload : gmap string string) :
  is_Some (part_info_tree payload) ↔ accepted_payload payload.
Proof.
  unfold part_info_tree, accepted_payload.
  destruct (payload !! "href") as [href|];
    [|split; [by intros [? ?]|by intros (? & ? & ? & _)]].
  destruct (payload !! "mimetype") as [mimetype|];
    [|split; [by intros [? ?]|by intros (? & ? & _ & ? & _)]].
  cbn zeta. split.
  - intros [t Ht]. exists href, mimetype.
    destruct (xml_compatible href); [|discriminate].
    destruct (xml_compatible mimetype); [|discriminate].
    destruct (truthy _); [|done]. simpl in Ht.
    by destruct (compatible _).
  - intros (? & ? & [= <-] & [= <-] & -> & -> & Hc). simpl.
    destruct (truthy _); simpl; [|by eexists]. rewrite Hc by done.
    by eexists.
Qed.

Lemma mapM_part_info_tree_is_Some (payloads : list (gmap string string)) :
  is_Some (mapM part_info_tree payloads) ↔ Forall accepted_payload payloads.
Proof.
  rewrite mapM_is_Some. apply Forall_proper; [|done].
  intros p. apply part_info_tree_is_Some.
Qed.

(** C10.  When the call on the payloads before it returns and the next
    payload lacks [href], the call on the whole list raises
    [KeyError('href')] and leaves the document exactly as the call on
    those first payloads leaves it: nothing was created for the payload
    that failed, and the [PartInfo] of each payload before it is under
    [PayloadInfo], which has that many children more than before the
    call. *)
Theorem payload_append_missing_href
    cls a h (d d1 : list Node) pre payload post :
  reachable cls a h d →
  payload_append h pre d = (Ok (), d1) →
  payload !! "href" = None →
  ∃ parts new,
    view d (pay_load_info h) = Some (branch "PayloadInfo" parts) ∧
    mapM part_info_tree pre = Some new ∧
    payload_append h (pre ++ payload :: post) d = (Raise (KeyError "href"), d1) ∧
    view d1 (pay_load_info h) = Some (branch "PayloadInfo" (parts ++ new)) ∧
    payload_count h d = Some (length parts) ∧
    payload_count h d1 = Some (length parts + length pre).
Proof.
  intros HR Hpre Hh. pose proof (reachable_Inv cls a h d HR) as HI.
  destruct (reachable_payload_info cls a h d HR) as (Hpli & _ & parts & Hp).
  destruct (payload_append_outcome h pre d parts HI Hp)
    as (d1' & Hrun & _ & Hp1).
  rewrite Hpre in Hrun. injection Hrun as Hok <-. symmetry in Hok.
  pose proof (append_outcome_Ok pre Hok) as Hnew.
  rewrite Hpli. exists parts, (fst (append_outcome pre)).
  split; [done|]. split; [done|]. split; [|split; [done|split]].
  - unfold payload_append in *. rewrite for_each_app, Hpre. simpl.
    unfold bind. rewrite body_eq. unfold body_outcome. by rewrite Hh.
  - apply payload_count_view. by rewrite Hpli.
  - rewrite (payload_count_view h d1 (parts ++ fst (append_outcome pre)))
      by (by rewrite Hpli).
    rewrite length_app. apply length_mapM in Hnew. by rewrite Hnew.
Qed.

(** C9. A call of [payload_append], whether it returns or raises, takes
    the tree from [messaging_tree h parts] to [messaging_tree h] of
    [parts] followed by what the call added: the root element, PartyInfo,
    CollaborationInfo and MessageProperties, built from the attributes of
    the object, which no method assigns, are as they were, the children
    [PayloadInfo] had are in place and unchanged, and new ones come after
    them, one for each payload when the call returns. *)
Theorem payload_append_only_extends
    cls a h (d : list Node) payloads r (d' : list Node) :
  reachable cls a h d →
  payload_append h payloads d = (r, d') →
  ∃ parts added,
    view d (element h) = Some (messaging_tree h parts) ∧
    view d' (element h) = Some (messaging_tree h (parts ++ added)) ∧
    (r = Ok () → length added = length payloads).
Proof.
  intros HR Hrun. pose proof (reachable_Inv cls a h d HR) as HI.
  destruct (reachable_payload_info cls a h d HR) as (_ & -> & parts & Hp).
  destruct (payload_append_outcome h payloads d parts HI Hp)
    as (d1 & Hrun1 & HI1 & Hp1).
  rewrite Hrun in Hrun1. injection Hrun1 as -> <-.
  exists parts, (fst (append_outcome payloads)).
  split; [by apply Inv_view_root|]. split; [by apply Inv_view_root|].
  apply append_outcome_length.
Qed.


(** * Further properties of the class *)

(** ** Calls on a concatenation *)

(** X4. One call on [xs ++ ys] is the call on [xs] followed, if it
    returned, by the call on [ys] on the document it left; if the call on
    [xs] raised, the call on [xs ++ ys] raises the same exception and
    leaves the same document. *)
Theorem payload_append_app h xs ys (d : list Node) :
  payload_append h (xs ++ ys) d =
  match payload_append h xs d with
  | (Ok _, d1) => payload_append h ys d1
  | (Raise e, d1) => (Raise e, d1)
  end.
Proof. apply for_each_app. Qed.

(** ** What [payload_append] reads of a payload *)

(** Two payloads the loop cannot tell apart: the same [href], the same
    [mimetype], and the same [CompressionType] or, on both sides, one
    that is missing or empty. *)
Definition same_payload (p q : gmap string string) : Prop :=
  p !! "href" = q !! "href" ∧
  p !! "mimetype" = q !! "mimetype" ∧
  (p !! "CompressionType" = q !! "CompressionType" ∨
   (truthy (get_or_None p "CompressionType") = false ∧
    truthy (get_or_None q "CompressionType") = false)).

Lemma body_outcome_same (p q : gmap string string) :
  same_payload p q → body_outcome p = body_outcome q.
Proof.
  intros (Hh & Hm & Hc). unfold body_outcome. rewrite Hh, Hm.
  destruct Hc as [Hc|[H1 H2]].
  - unfold get_or_None. by rewrite Hc.
  - by rewrite H1, H2.
Qed.

Lemma body_same_payload h (p q : gmap string string) (d : list Node) :
  same_payload p q →
  payload_append_body h p d = payload_append_body h q d.
Proof. intros H. by rewrite !body_eq, (body_outcome_same p q H). Qed.

(** X5. [payload_append] reads three keys of a payload and nothing else,
    and of [CompressionType] only a non-empty value: on lists of payloads
    that agree, one by one, on [href], on [mimetype] and on
    [CompressionType] (an empty value counting as a missing key), it ends
    the same way and leaves the same document. *)
Theorem payload_append_same_payloads h ps qs (d : list Node) :
  Forall2 same_payload ps qs →
  payload_append h ps d = payload_append h qs d.
Proof.
  intros H. revert d. induction H as [|p q ps qs Hpq _ IH]; intros d; [done|].
  unfold payload_append in *. simpl. unfold bind.
  rewrite (body_same_payload h p q d Hpq).
  destruct (payload_append_body h q d) as [[[]|e] d1]; [|done]. apply IH.
Qed.

(** ** The two references of a header *)

(** X6. In every state a header can be in, [self.pay_load_info] is the
    last child of the [UserMessage] element, which is the only child of
    the element [self.element] returns, the [Messaging] root that carries
    the eight namespace declarations: what [payload_append] attaches
    through the one reference is in the tree [xml] serializes from the
    other. *)
Theorem pay_load_info_under_element cls a h (d : list Node) :
  reachable cls a h d →
  ∃ root u user_message kids,
    d !! element h = Some root ∧
    n_tag root = qn "Messaging" ∧ n_nsmap root = _NS ∧
    n_children root = [u] ∧
    d !! u = Some user_message ∧
    n_tag user_message = qn "UserMessage" ∧
    last (n_children user_message) = Some (pay_load_info h) ∧
    d !! pay_load_info h
    = Some (mkNode (qn "PayloadInfo") [] [] PyNone kids).
Proof.
  intros HR. destruct (reachable_Inv cls a h d HR) as [Hx Hp Hs [kids Hk] _].
  unfold element. rewrite Hx, Hp.
  eexists _, 1, _, kids.
  rewrite (Hs 0), (Hs 1) by lia. simpl.
  repeat (split; [reflexivity|]). done.
Qed.

(** ** What a call does to the elements that exist *)

(** An element as it was and as it is: the same tag, declarations,
    attributes and text, and the children it had, first and in order. *)
Definition node_grows (n n' : Node) : Prop :=
  n_tag n' = n_tag n ∧ n_nsmap n' = n_nsmap n ∧
  n_attrib n' = n_attrib n ∧ n_text n' = n_text n ∧
  n_children n `prefix_of` n_children n'.

(** Every element of [d] is in [d'] under the same reference, grown in
    that sense if it is [p], and else as it was. *)
Definition doc_grows (p : nat) (d d' : list Node) : Prop :=
  length d ≤ length d' ∧
  ∀ i n, d !! i = Some n →
    ∃ n', d' !! i = Some n' ∧ node_grows n n' ∧ (i ≠ p → n' = n).

Lemma node_grows_refl n : node_grows n n.
Proof. by repeat split. Qed.

Lemma doc_grows_refl p (d : list Node) : doc_grows p d d.
Proof.
  split; [done|]. intros i n H. exists n.
  split; [done|]. split; [apply node_grows_refl|done].
Qed.

Lemma doc_grows_trans p (d1 d2 d3 : list Node) :
  doc_grows p d1 d2 → doc_grows p d2 d3 → doc_grows p d1 d3.
Proof.
  intros [Hl1 H1] [Hl2 H2]. split; [lia|]. intros i n Hn.
  destruct (H1 i n Hn) as (n2 & Hn2 & (Ht & Hs & Ha & Hx & Hc) & He).
  destruct (H2 i n2 Hn2) as (n3 & Hn3 & (Ht' & Hs' & Ha' & Hx' & Hc') & He').
  exists n3. split; [done|]. split.
  - repeat split; try congruence. by etrans.
  - intros Hne. rewrite (He' Hne). by apply He.
Qed.

Lemma doc_grows_graft p c (d ns : list Node) :
  doc_grows p d (alter (add_child c) p d ++ ns).
Proof.
  split; [rewrite length_app, length_alter; lia|].
  intros i n Hn. pose proof (lookup_lt_Some _ _ _ Hn) as Hi.
  rewrite lookup_app_l by (by rewrite length_alter).
  destruct (decide (p = i)) as [->|Hne].
  - rewrite list_lookup_alter_eq, Hn. simpl. eexists. split; [done|].
    split; [|done]. repeat split. by apply prefix_app_r.
  - rewrite list_lookup_alter_ne by done. exists n.
    split; [done|]. split; [apply node_grows_refl|done].
Qed.

Lemma body_grows h (payload : gmap string string) (d : list Node) :
  doc_grows (pay_load_info h) d (snd (payload_append_body h payload d)).
Proof.
  rewrite body_eq. simpl.
  destruct (outcome_nodes (length d) (fst (body_outcome payload))); simpl.
  - apply doc_grows_refl.
  - apply doc_grows_graft.
Qed.

(** X8. On any document, also one that is not as the class left it, a
    call of [payload_append], whether it returns or raises, leaves every
    element that existed under its reference with its tag, its
    attributes and its text; no element loses a child or has its children
    reordered; and only the element [self.pay_load_info] refers to gets
    new children. *)
Theorem payload_append_grows h payloads (d : list Node) :
  doc_grows (pay_load_info h) d (snd (payload_append h payloads d)).
Proof.
  revert d. induction payloads as [|payload rest IH]; intros d.
  - apply doc_grows_refl.
  - unfold payload_append in *. simpl. unfold bind.
    pose proof (body_grows h payload d) as Hb.
    destruct (payload_append_body h payload d) as [[[]|e] d1]; simpl in *.
    + eapply doc_grows_trans; [exact Hb|apply IH].
    + exact Hb.
Qed.

(** ** The kinds of element a document holds *)

(** The elements [payload_append] creates. *)
Definition part_node (n : Node) : Prop :=
  (∃ href kids, n = mkNode (qn "PartInfo") [] [("href", href)] PyNone kids) ∨
  (∃ kids, n = mkNode (qn "PartProperties") [] [] PyNone kids) ∨
  (∃ name text, n = mkNode (qn "Property") [] [("name", name)] text []).

Definition tail_parts (d : list Node) : Prop :=
  ∀ i n, 16 < i → d !! i = Some n → part_node n.

Lemma tail_parts_graft (d ns : list Node) c :
  16 < length d → tail_parts d → Forall part_node ns →
  tail_parts (alter (add_child c) 16 d ++ ns).
Proof.
  intros Hlen Ht Hns i n Hi. rewrite lookup_app.
  rewrite list_lookup_alter_ne by lia.
  destruct (d !! i) as [m|] eqn:E.
  - intros [= <-]. by eapply Ht.
  - intros H. apply list_elem_of_lookup_2 in H.
    by eapply (proj1 (Forall_forall _ _) Hns).
Qed.

Lemma part_node_PartInfo href kids :
  part_node (mkNode (qn "PartInfo") [] [("href", href)] PyNone kids).
Proof. left. by eexists _, _. Qed.

Lemma part_node_PartProperties kids :
  part_node (mkNode (qn "PartProperties") [] [] PyNone kids).
Proof. right. left. by eexists. Qed.

Lemma part_node_Property name text :
  part_node (mkNode (qn "Property") [] [("name", name)] text []).
Proof. right. right. by eexists _, _. Qed.

Lemma shape_nodes_kind n href props : Forall part_node (shape_nodes n href props).
Proof.
  unfold shape_nodes. apply Forall_cons_2; [apply part_node_PartInfo|].
  apply Forall_cons_2; [apply part_node_PartProperties|].
  apply Forall_fmap, Forall_forall. intros [name text] _.
  apply part_node_Property.
Qed.

Lemma body_tail_parts h (payload : gmap string string) (d : list Node) :
  Inv h d → tail_parts d →
  tail_parts (snd (payload_append_body h payload d)).
Proof.
  intros HI Ht. pose proof (Inv_length h d HI) as Hlen.
  rewrite body_eq, (inv_pli h d HI). simpl.
  destruct (fst (body_outcome payload)) as [[href props]|]; simpl; [|done].
  apply tail_parts_graft; [done|done|apply shape_nodes_kind].
Qed.

Lemma reachable_tail_parts cls a h (d : list Node) :
  reachable cls a h d → tail_parts d.
Proof.
  induction 1 as [h d H|h d payloads r d' HR IH H].
  - apply init_Ok in H as (-> & -> & _). intros i n Hi.
    do 17 (destruct i as [|i]; [lia|]). simpl. discriminate.
  - pose proof (reachable_Inv cls a h d HR) as HI.
    replace d' with (snd (payload_append h payloads d)) by (by rewrite H).
    clear H. revert d HR IH HI.
    induction payloads as [|payload rest IHp]; intros d HR IH HI; [done|].
    unfold payload_append in *. simpl. unfold bind.
    pose proof (body_tail_parts h payload d HI IH) as Hb.
    destruct (payload_append_body h payload d) as [[[]|e] d1] eqn:E;
      simpl in *; [|done].
    assert (reachable cls a h d1) as HR1.
    { apply (reach_append cls a h d [payload] (Ok ()) d1 HR).
      unfold payload_append. simpl. unfold bind. by rewrite E. }
    apply IHp; [done|done|]. by eapply reachable_Inv.
Qed.

(** The local names of the elements of a header. *)
Definition eb3_names : list string :=
  [ "Messaging"; "UserMessage"; "PartyInfo"; "From"; "To"; "PartyId"; "Role";
    "CollaborationInfo"; "Service"; "Action"; "ConversationId";
    "MessageProperties"; "Property"; "PayloadInfo";
    "PartInfo"; "PartProperties" ].

Definition well_formed_node (root : nat) (i : nat) (n : Node) : Prop :=
  (∃ name, name ∈ eb3_names ∧ n_tag n = qn name) ∧
  n_nsmap n = (if decide (i = root) then _NS else []) ∧
  (n_text n ≠ PyNone → n_children n = []).

Lemma part_node_well_formed i n : 16 < i → part_node n → well_formed_node 0 i n.
Proof.
  intros Hi Hn. unfold well_formed_node.
  rewrite decide_False by lia.
  destruct Hn as [(href & kids & ->)|[(kids & ->)|(name & text & ->)]];
    simpl; (split; [|split; [reflexivity|done]]).
  - exists "PartInfo". split; [|done]. unfold eb3_names. set_solver.
  - exists "PartProperties". split; [|done]. unfold eb3_names. set_solver.
  - exists "Property". split; [|done]. unfold eb3_names. set_solver.
Qed.

(** X9. In every state a header can be in, every element of its document
    has a name of the [eb3] namespace, one of sixteen; only the root
    declares namespace prefixes, the eight of [_NS]; and no element has
    both a text and children. *)
Theorem reachable_nodes_well_formed cls a h (d : list Node) i n :
  reachable cls a h d →
  d !! i = Some n →
  well_formed_node (element h) i n.
Proof.
  intros HR Hn. pose proof (reachable_tail_parts cls a h d HR) as Ht.
  destruct (reachable_Inv cls a h d HR) as [Hx _ Hs [kids Hk] _].
  unfold element. rewrite Hx.
  destruct (decide (16 < i)) as [Hi|Hi].
  { apply part_node_well_formed; [done|]. by eapply Ht. }
  destruct (decide (i = 16)) as [->|Hne].
  { rewrite Hk in Hn. injection Hn as <-. unfold well_formed_node. simpl.
    split; [|done]. exists "PayloadInfo". split; [|done].
    unfold eb3_names. set_solver. }
  rewrite Hs in Hn by lia. unfold well_formed_node.
  do 16 (destruct i as [|i];
         [injection Hn as <-; simpl;
          (split; [eexists; split; [|reflexivity]; unfold eb3_names; set_solver
                  |split; [reflexivity|done]])|]).
  lia.
Qed.


(** * What needs lxml to accept the literals of the class *)

Section Literals.

(** The attribute values the class writes itself.  lxml accepts them;
    the results that say that a call returns need it. *)
Definition class_literals : list string :=
  [ service_type_attr; "originalSender"; "finalRecipient";
    "MimeType"; "CompressionType" ].

Hypothesis literals_compatible :
  forallb xml_compatible class_literals = true.

Lemma literal_compatible s : s ∈ class_literals → xml_compatible s = true.
Proof.
  intros H. apply list_elem_of_In in H.
  exact (proj1 (forallb_forall _ _) literals_compatible s H).
Qed.

Lemma body_outcome_clean (payload : gmap string string) t :
  part_info_tree payload = Some t →
  snd (body_outcome payload) = Ok () ∧
  outcome_trees (fst (body_outcome payload)) = [t].
Proof.
  unfold body_outcome, part_info_tree. rewrite !attrib_compatible_1.
  destruct (payload !! "href") as [href|]; [|discriminate].
  destruct (payload !! "mimetype") as [mimetype|]; [|discriminate].
  crush.
  rewrite (literal_compatible "MimeType"),
    (literal_compatible "CompressionType")
    by (unfold class_literals; set_solver).
  destruct (xml_compatible href); crush; [|discriminate].
  destruct (xml_compatible mimetype); crush; [|discriminate].
  destruct (truthy (get_or_None payload "CompressionType")) eqn:Et;
    crush.
  - destruct (compatible (get_or_None payload "CompressionType")); crush;
      [|discriminate].
    intros [= <-]. split; [done|]. cbn [fst outcome_trees].
    by rewrite part_tree_shape, Et.
  - intros [= <-]. split; [done|]. cbn [fst outcome_trees].
    by rewrite part_tree_shape, Et.
Qed.

Lemma append_outcome_clean (payloads : list (gmap string string)) new :
  mapM part_info_tree payloads = Some new →
  append_outcome payloads = (new, Ok ()).
Proof.
  revert new. induction payloads as [|payload rest IH]; intros new H.
  - by injection H as <-.
  - apply mapM_Some, Forall2_cons_inv_l in H as (t & ts & Ht & Hts & ->).
    apply mapM_Some in Hts. simpl.
    destruct (body_outcome_clean payload t Ht) as [-> ->].
    by rewrite (IH ts Hts).
Qed.

(** ** Construction *)

(** The strings of a header that end up in its tree. *)
Definition written_values (self : Header) : list pyval :=
  [ c1_party_id self; PyStr (c1_party_id_type self);
    c2_party_id self; PyStr (c2_party_id_type self);
    c3_party_id self; PyStr (c3_party_id_type self);
    c4_party_id self; PyStr (c4_party_id_type self);
    PyStr (role self); PyStr (service self); PyStr (action self);
    PyStr (conversationid self) ].

Lemma init_values_written h :
  forallb compatible (init_values h) = forallb compatible (written_values h).
Proof.
  unfold init_values, written_values. cbn [forallb compatible].
  rewrite (literal_compatible service_type_attr),
    (literal_compatible "originalSender"),
    (literal_compatible "finalRecipient")
    by (unfold class_literals; set_solver).
  apply eq_true_iff_eq. rewrite !andb_true_iff. intuition.
Qed.

Lemma some_None_iff a :
  existsb is_None (party_ids a) = true ↔
  a_c1_party_id a = PyNone ∨ a_c2_party_id a = PyNone ∨
  a_c3_party_id a = PyNone ∨ a_c4_party_id a = PyNone.
Proof.
  unfold party_ids.
  destruct (a_c1_party_id a), (a_c2_party_id a),
    (a_c3_party_id a), (a_c4_party_id a); simpl; intuition discriminate.
Qed.

(** C3, as the code has it.  [Header(...)] raises the [ValueError] of its
    own test exactly when one of the four party identifiers is [None],
    and then no object comes back.  When none is, the class checks
    nothing more, and the construction returns an object exactly when
    lxml accepts the twelve strings written into the tree (the four
    identifiers, their types, role, service, action and conversationid;
    [service_type] is not among them); otherwise the [ValueError] of lxml
    comes out of the constructor.  It raises nothing else. *)
Theorem init_raises_iff_None_or_refused cls a :
  let some_None :=
    a_c1_party_id a = PyNone ∨ a_c2_party_id a = PyNone ∨
    a_c3_party_id a = PyNone ∨ a_c4_party_id a = PyNone in
  (__init__ cls a = Raise (ValueError "Parameters must not be None")
   ↔ some_None) ∧
  ((∃ h d, __init__ cls a = Ok (h, d))
   ↔ ¬ some_None ∧
     forallb compatible (written_values (new_header cls a)) = true) ∧
  (∀ e, __init__ cls a = Raise e
        → e = ValueError "Parameters must not be None" ∨
          e = ValueError lxml_message).
Proof.
  cbv zeta. rewrite init_eq, init_values_written.
  pose proof (some_None_iff a) as Hsome.
  destruct (existsb is_None (party_ids a)) eqn:E;
    [|destruct (forallb compatible (written_values (new_header cls a)))].
  - split; [|split].
    + split; [intros _; by apply Hsome|done].
    + split; [by intros (h & d & H)|].
      intros [Hn _]. destruct Hn. by apply Hsome.
    + intros e [= <-]. by left.
  - split; [|split].
    + split; [discriminate|]. intros H. apply Hsome in H. discriminate.
    + split; [|intros _; eauto]. intros _. split; [|done].
      intros H. apply Hsome in H. discriminate.
    + intros e H. discriminate.
  - split; [|split].
    + split; [|intros H; apply Hsome in H; discriminate].
      unfold lxml_message. intros H. discriminate.
    + split; [by intros (h & d & H)|]. by intros [_ H].
    + intros e [= <-]. by right.
Qed.

(** C7, as the code has it.  A party identifier that is [None] makes
    [Header(...)] raise [ValueError].  That an identifier is not empty is
    not checked: when the four are strings, empty or not, and lxml
    accepts what is written into the tree, the construction returns. *)
Theorem init_rejects_None_only cls a :
  (In PyNone (party_ids a)
   → __init__ cls a = Raise (ValueError "Parameters must not be None")) ∧
  (Forall (λ v, ∃ s, v = PyStr s) (party_ids a)
   → forallb compatible (written_values (new_header cls a)) = true
   → __init__ cls a = Ok (new_header cls a, skeleton (new_header cls a))).
Proof.
  rewrite init_eq, init_values_written. unfold party_ids. split.
  - destruct (a_c1_party_id a), (a_c2_party_id a),
      (a_c3_party_id a), (a_c4_party_id a); simpl; intuition discriminate.
  - intros H ->. repeat (apply Forall_cons in H as [[? ->] H]). done.
Qed.

(** ** Appending payloads *)

(** C2, as the code has it.  On a header in any state it can be in, a
    call whose payloads all have [href] and [mimetype], with values lxml
    accepts, returns [None] and leaves under [PayloadInfo] the children
    it had, followed by the [PartInfo] tree of each payload in input
    order ([part_tree]: attribute [href]; one [PartProperties]; in it a
    [Property] named MimeType with the mimetype as text and, exactly when
    [payload.get('CompressionType')] is truthy, a second [Property] named
    CompressionType with that value as text).  A further call adds its
    trees after those: nothing is merged or dropped. *)
Theorem payload_append_appends cls a h (d : list Node) payloads new :
  reachable cls a h d →
  mapM part_info_tree payloads = Some new →
  ∃ parts d',
    view d (pay_load_info h) = Some (branch "PayloadInfo" parts) ∧
    payload_append h payloads d = (Ok (), d') ∧
    view d' (pay_load_info h) = Some (branch "PayloadInfo" (parts ++ new)) ∧
    ∀ payloads2 new2,
      mapM part_info_tree payloads2 = Some new2 →
      ∃ d'', payload_append h payloads2 d' = (Ok (), d'') ∧
             view d'' (pay_load_info h)
             = Some (branch "PayloadInfo" (parts ++ new ++ new2)).
Proof.
  intros HR Hnew. pose proof (reachable_Inv cls a h d HR) as HI.
  destruct (reachable_payload_info cls a h d HR) as (-> & _ & parts & Hp).
  destruct (payload_append_outcome h payloads d parts HI Hp)
    as (d' & Hrun & HI' & Hp').
  rewrite (append_outcome_clean payloads new Hnew) in Hrun, Hp'. simpl in *.
  exists parts, d'. split; [done|]. split; [done|]. split; [done|].
  intros payloads2 new2 Hnew2.
  destruct (payload_append_outcome h payloads2 d' _ HI' Hp')
    as (d'' & Hrun2 & _ & Hp'').
  rewrite (append_outcome_clean payloads2 new2 Hnew2) in Hrun2, Hp''. simpl in *.
  exists d''. split; [done|]. by rewrite app_assoc.
Qed.

(** C4, as the code has it.  A call on a list with a payload that lacks
    [mimetype] raises, [KeyError] for a missing key or the [ValueError] of
    lxml for a value refused before that, and undoes nothing:
    [PayloadInfo] keeps its children, and what the call attached comes
    after them.  When the payloads before the first one that lacks
    [mimetype] are complete, with values lxml accepts, and that one has
    an [href] lxml accepts, the exception is [KeyError('mimetype')] and
    [PayloadInfo] has the complete [PartInfo] of every payload before and
    one child more, the [PartInfo] of that payload holding an empty
    [PartProperties]. *)
Theorem payload_append_missing_mimetype cls a h (d : list Node) payloads :
  reachable cls a h d →
  Exists (λ p, p !! "mimetype" = None) payloads →
  ∃ parts added e d',
    view d (pay_load_info h) = Some (branch "PayloadInfo" parts) ∧
    payload_append h payloads d = (Raise e, d') ∧
    (e = KeyError "href" ∨ e = KeyError "mimetype" ∨
     e = ValueError lxml_message) ∧
    view d' (pay_load_info h) = Some (branch "PayloadInfo" (parts ++ added)) ∧
    payload_count h d = Some (length parts) ∧
    payload_count h d' = Some (length parts + length added) ∧
    ∀ pre payload post new href,
      payloads = pre ++ payload :: post →
      mapM part_info_tree pre = Some new →
      payload !! "href" = Some href →
      xml_compatible href = true →
      payload !! "mimetype" = None →
      e = KeyError "mimetype" ∧ added = new ++ [partial_part_tree href].
Proof.
  intros HR HE. pose proof (reachable_Inv cls a h d HR) as HI.
  destruct (reachable_payload_info cls a h d HR) as (Hpli & _ & parts & Hp).
  destruct (payload_append_outcome h payloads d parts HI Hp)
    as (d' & Hrun & _ & Hp').
  destruct (append_outcome_missing_mimetype payloads HE) as [e He].
  rewrite He in Hrun. rewrite Hpli.
  exists parts, (fst (append_outcome payloads)), e, d'.
  split; [done|]. split; [done|].
  split; [by apply append_outcome_raises with payloads|].
  split; [done|].
  split; [apply payload_count_view; by rewrite Hpli|].
  split.
  { rewrite (payload_count_view h d' (parts ++ fst (append_outcome payloads)))
      by (by rewrite Hpli).
    by rewrite length_app. }
  intros pre payload post new href -> Hnew Hh Hc Hm.
  rewrite append_outcome_app, (append_outcome_clean pre new Hnew) in He |- *.
  simpl in He |- *. unfold body_outcome in He |- *.
  rewrite Hh, Hm, attrib_compatible_1, Hc in He |- *. simpl in He |- *.
  injection He as <-. done.
Qed.

(** ** How a call of [payload_append] ends *)

(** X3.  On any header and any document, [payload_append] returns [None]
    exactly when every payload has [href] and [mimetype] and lxml accepts
    its [href], its [mimetype] and, if it is truthy, its
    [CompressionType].  Otherwise it raises [KeyError('href')],
    [KeyError('mimetype')] or the [ValueError] of lxml, and nothing else:
    the lookup [payload['CompressionType']] is made only when [get]
    found the key. *)
Theorem payload_append_returns_iff_accepted h payloads (d : list Node) :
  (fst (payload_append h payloads d) = Ok ()
   ↔ Forall accepted_payload payloads) ∧
  (∀ e, fst (payload_append h payloads d) = Raise e →
     e = KeyError "href" ∨ e = KeyError "mimetype" ∨
     e = ValueError lxml_message).
Proof.
  rewrite payload_append_fst. split.
  - rewrite <- mapM_part_info_tree_is_Some. split.
    + intros H. apply append_outcome_Ok in H. by eexists.
    + intros [new H]. by rewrite (append_outcome_clean payloads new H).
  - apply append_outcome_raises.
Qed.

(** ** Calling again after a call that raised *)

(** X7.  After a call that raised, the header can be used again, and
    what the failed call attached is still there: the complete
    [PartInfo] of every payload it went through before the one that
    failed, then what it made of that one.  The next call, on payloads
    lxml accepts, returns and puts its [PartInfo] elements after those.
    Calling again with the whole list, once mended, therefore leaves its
    first payloads twice. *)
Theorem payload_append_after_failure
    cls a h (d d1 : list Node) payloads e again new2 :
  reachable cls a h d →
  payload_append h payloads d = (Raise e, d1) →
  mapM part_info_tree again = Some new2 →
  ∃ parts left d2,
    view d (pay_load_info h) = Some (branch "PayloadInfo" parts) ∧
    view d1 (pay_load_info h) = Some (branch "PayloadInfo" (parts ++ left)) ∧
    payload_append h again d1 = (Ok (), d2) ∧
    view d2 (pay_load_info h) =
      Some (branch "PayloadInfo" (parts ++ left ++ new2)) ∧
    ∀ pre rest new,
      payloads = pre ++ rest →
      mapM part_info_tree pre = Some new →
      new `prefix_of` left.
Proof.
  intros HR Hrun Hnew2. pose proof (reachable_Inv cls a h d HR) as HI.
  destruct (reachable_payload_info cls a h d HR) as (-> & _ & parts & Hp).
  destruct (payload_append_outcome h payloads d parts HI Hp)
    as (d1' & Hrun' & HI1 & Hp1).
  rewrite Hrun in Hrun'. injection Hrun' as He <-.
  destruct (payload_append_outcome h again d1 _ HI1 Hp1)
    as (d2 & Hrun2 & _ & Hp2).
  rewrite (append_outcome_clean again new2 Hnew2) in Hrun2, Hp2.
  exists parts, (fst (append_outcome payloads)), d2.
  split; [done|]. split; [done|]. split; [done|].
  split; [by rewrite Hp2, <- app_assoc|].
  intros pre rest new -> Hnew.
  rewrite append_outcome_app, (append_outcome_clean pre new Hnew). simpl.
  by apply prefix_app_r.
Qed.

(** ** How many elements a call creates *)

(** The elements made for one payload the loop goes through:
    [PartInfo], [PartProperties], the MimeType [Property] and, for a
    truthy [CompressionType], a second [Property]. *)
Definition elements_of_payload (payload : gmap string string) : nat :=
  if truthy (get_or_None payload "CompressionType") then 4 else 3.

Lemma body_accepted h (payload : gmap string string) (d : list Node) :
  accepted_payload payload →
  fst (payload_append_body h payload d) = Ok () ∧
  length (snd (payload_append_body h payload d))
  = length d + elements_of_payload payload.
Proof.
  intros (href & mimetype & Hh & Hm & Hch & Hcm & Hc).
  rewrite body_eq. unfold body_outcome, elements_of_payload.
  rewrite Hh, Hm, !attrib_compatible_1, Hch.
  rewrite (literal_compatible "MimeType"),
    (literal_compatible "CompressionType")
    by (unfold class_literals; set_solver).
  cbn [compatible]. rewrite Hcm. cbn zeta.
  destruct (truthy (get_or_None payload "CompressionType")).
  - rewrite Hc by done. simpl. rewrite length_app, length_alter. simpl.
    split; [done|lia].
  - simpl. rewrite length_app, length_alter. simpl. split; [done|lia].
Qed.

(** X10.  A call on payloads that all have [href] and [mimetype], with
    values lxml accepts, returns, and the document then has three
    elements more for each payload and one more for each payload with a
    non-empty [CompressionType]. *)
Theorem payload_append_creates h payloads (d : list Node) :
  Forall accepted_payload payloads →
  fst (payload_append h payloads d) = Ok () ∧
  length (snd (payload_append h payloads d))
  = length d + sum_list (elements_of_payload <$> payloads).
Proof.
  intros H. revert d.
  induction H as [|payload rest Hp _ IH]; intros d.
  - unfold payload_append. simpl. split; [done|lia].
  - rewrite fmap_cons. unfold payload_append in *.
    cbn [for_each sum_list]. unfold bind.
    destruct (body_accepted h payload d Hp) as [H1 H2].
    destruct (payload_append_body h payload d) as [r d1]. simpl in H1, H2.
    subst r. destruct (IH d1) as [IH1 IH2].
    split; [done|]. rewrite IH2, H2. unfold id. lia.
Qed.

End Literals.

End Lxml.

(** ** [_nsmap] *)

Lemma dict_get_None k (l : list (string * string)) :
  dict_get k l = None ↔ k ∉ l.*1.
Proof.
  induction l as [|[k' v] l IH]; simpl.
  - split; [intros _; apply not_elem_of_nil|done].
  - rewrite not_elem_of_cons. simpl.
    destruct (String.eqb_spec k k') as [->|Hne].
    + split; [discriminate|]. by intros [? _].
    + rewrite IH. split; [done|]. by intros [_ ?].
Qed.

Lemma dict_get_Some k v (l : list (string * string)) :
  dict_get k l = Some v → (k, v) ∈ l.
Proof.
  induction l as [|[k' v'] l IH]; simpl; [discriminate|].
  destruct (String.eqb_spec k k') as [->|Hne].
  - intros [= ->]. left.
  - intros H. right. by apply IH.
Qed.

(** X1. [_nsmap(ns, tag)] raises [KeyError(ns)] exactly when [ns] is not
    one of the prefixes of [_NS], and raises nothing else; for a prefix of
    [_NS] it returns the Clark name made of the URI [_NS] gives it and of
    [tag], whatever [tag] is. *)
Theorem nsmap_KeyError_iff_undeclared ns tag :
  (_nsmap ns tag = Raise (KeyError ns) ↔ ns ∉ _NS.*1) ∧
  (ns ∈ _NS.*1 ↔
   ∃ uri, (ns, uri) ∈ _NS ∧ _nsmap ns tag = Ok ("{" +:+ uri +:+ "}" +:+ tag)) ∧
  (∀ e, _nsmap ns tag = Raise e → e = KeyError ns).
Proof.
  unfold _nsmap. destruct (dict_get ns _NS) as [uri|] eqn:E.
  - pose proof (dict_get_Some ns uri _NS E) as Hin.
    assert (ns ∈ _NS.*1) as Hdom.
    { apply list_elem_of_fmap. by exists (ns, uri). }
    split; [|split].
    + split; [discriminate|]. intros H. by destruct H.
    + split; [|done]. intros _. by exists uri.
    + discriminate.
  - apply dict_get_None in E. split; [|split].
    + done.
    + split; [done|]. intros (uri & _ & H). discriminate.
    + by intros e [= <-].
Qed.

Lemma append_inv_head (s t1 t2 : string) : s +:+ t1 = s +:+ t2 → t1 = t2.
Proof. induction s as [|c s IH]; simpl; [done|]. intros [= H]. by apply IH. Qed.

Lemma dict_get_NS ns uri :
  dict_get ns _NS = Some uri → In (ns, uri) _NS.
Proof. intros H. apply list_elem_of_In. by apply dict_get_Some. Qed.

(** X2. Two calls of [_nsmap] that return the same name were made with
    the same prefix and the same tag: no two of the eight namespaces can
    be confused, whatever the tags are. *)
Theorem nsmap_injective ns1 tag1 ns2 tag2 s :
  _nsmap ns1 tag1 = Ok s →
  _nsmap ns2 tag2 = Ok s →
  ns1 = ns2 ∧ tag1 = tag2.
Proof.
  unfold _nsmap.
  destruct (dict_get ns1 _NS) as [u1|] eqn:E1; [|discriminate].
  destruct (dict_get ns2 _NS) as [u2|] eqn:E2; [|discriminate].
  intros [= <-] [= H].
  apply dict_get_NS in E1, E2. simpl in E1, E2.
  repeat (destruct E1 as [[= <- <-]|E1]); [..|done];
    repeat (destruct E2 as [[= <- <-]|E2]); try done;
    try (simpl in H; discriminate H);
    (split; [reflexivity|]);
    do 3 apply append_inv_head in H; by symmetry.
Qed.

Lemma nsmap_injective_witness : "eb3" = "eb3" ∧ "Property" = "Property".
Proof.
  apply (nsmap_injective "eb3" "Property" "eb3" "Property"
           (qn "Property")); reflexivity.
Defined.

(** * Concrete inputs *)

(** ** The strings lxml accepts *)

(** lxml's test of a [str], on its UTF-8 bytes: no byte below 0x20 other
    than tab, line feed and carriage return, and none of the encodings of
    U+FFFE, U+FFFF and the surrogates. *)
Definition xmlIsChar_ch (c : N) : bool :=
  ((9 <=? c) && (c <=? 10) || (c =? 13) || (32 <=? c))%N.

Fixpoint lxml_compatible (s : string) : bool :=
  match s with
  | EmptyString => true
  | String c s' =>
    let n := Ascii.N_of_ascii c in
    (if (n <? 128)%N then xmlIsChar_ch n
     else match s' with
          | String c1 (String c2 _) =>
            let next3 :=
              (n * 65536 + Ascii.N_of_ascii c1 * 256 + Ascii.N_of_ascii c2)%N in
            negb ((next3 =? 15712190) || (next3 =? 15712191)
                  || (15573120 <=? next3) && (next3 <=? 15581119))%N
          | _ => true
          end)
    && lxml_compatible s'
  end.

(** The one-character string U+0001, which lxml refuses. *)
Definition ctrl_A : string := String (Ascii.ascii_of_nat 1) EmptyString.

(** ** A header and payloads *)

(** A source of UUIDs that never repeats. *)
Definition ex_uuid4 (n : nat) : string :=
  "0b5ae0f4-53a9-4c58-9a0c-" +:+ String.concat "" (replicate (S n) "a").

Definition ex_class : HeaderClass := fst (class_Header ex_uuid4 0).

Definition ex_args : Args :=
  mkArgs (PyStr "sender") "urn:type:c1" (PyStr "gw-a") "urn:type:c2"
         (PyStr "gw-b") "urn:type:c3" (PyStr "recipient") "urn:type:c4"
         None None None None None.

Definition ex_header : Header := new_header ex_class ex_args.
Definition ex_doc : list Node := skeleton ex_header.

Definition ex_pdf : gmap string string :=
  list_to_map [("href", "cid:1"); ("mimetype", "application/pdf")].

Definition ex_xml_gzip : gmap string string :=
  list_to_map [("href", "cid:2"); ("mimetype", "text/xml");
               ("CompressionType", "gzip")].

Definition ex_no_mimetype : gmap string string :=
  list_to_map [("href", "cid:3")].

Definition ex_no_href : gmap string string :=
  list_to_map [("mimetype", "text/plain")].

Definition ex_bad_mimetype : gmap string string :=
  list_to_map [("href", "cid:1"); ("mimetype", ctrl_A)].

Definition ex_pdf_noisy : gmap string string :=
  list_to_map [("href", "cid:1"); ("mimetype", "application/pdf");
               ("CompressionType", ""); ("filename", "a.pdf")].

Definition ex_mended : gmap string string :=
  list_to_map [("href", "cid:3"); ("mimetype", "image/png")].

Definition ex_args_other : Args :=
  mkArgs (PyStr "another-sender") "urn:type:c1" (PyStr "gw-x") "urn:type:c2"
         (PyStr "gw-y") "urn:type:c3" (PyStr "another-recipient") "urn:type:c4"
         None None None None None.

Definition ex_args_empty_ids : Args :=
  mkArgs (PyStr "") "urn:type:c1" (PyStr "") "urn:type:c2"
         (PyStr "") "urn:type:c3" (PyStr "") "urn:type:c4"
         None None None None None.

Definition ex_args_ctrl : Args :=
  mkArgs (PyStr "sender") ctrl_A (PyStr "gw-a") "urn:type:c2"
         (PyStr "gw-b") "urn:type:c3" (PyStr "recipient") "urn:type:c4"
         None None None None None.

Lemma ex_reachable :
  reachable lxml_compatible ex_class ex_args ex_header ex_doc.
Proof. apply reach_init. reflexivity. Qed.

(** ** The results at these inputs *)

Lemma init_builds_messaging_tree_witness :
  ex_header = new_header ex_class ex_args ∧
  view ex_doc (element ex_header)
  = Some (messaging_tree (new_header ex_class ex_args) []).
Proof.
  apply (init_builds_messaging_tree lxml_compatible
           ex_class ex_args ex_header ex_doc).
  reflexivity.
Defined.

(** C2 as stated fails: a payload with both keys whose [mimetype] lxml
    refuses; the call raises lxml's [ValueError] and leaves a [PartInfo]
    whose MimeType [Property] has no text. *)
Lemma payload_append_refused_mimetype :
  ex_bad_mimetype !! "href" = Some "cid:1" ∧
  ex_bad_mimetype !! "mimetype" = Some ctrl_A ∧
  fst (payload_append lxml_compatible ex_header [ex_bad_mimetype] ex_doc)
  = Raise (ValueError lxml_message) ∧
  view (snd (payload_append lxml_compatible ex_header [ex_bad_mimetype] ex_doc))
       (pay_load_info ex_header)
  = Some (branch "PayloadInfo" [shape_tree "cid:1" [("MimeType", PyNone)]]).
Proof. vm_compute. auto. Qed.

Lemma payload_append_appends_witness :
  ∃ parts d',
    view ex_doc (pay_load_info ex_header) = Some (branch "PayloadInfo" parts) ∧
    payload_append lxml_compatible ex_header [ex_pdf; ex_xml_gzip] ex_doc
    = (Ok (), d') ∧
    view d' (pay_load_info ex_header)
    = Some (branch "PayloadInfo"
              (parts ++
               [ part_tree "cid:1" "application/pdf" PyNone;
                 part_tree "cid:2" "text/xml" (PyStr "gzip") ])) ∧
    ∀ payloads2 new2,
      mapM (part_info_tree lxml_compatible) payloads2 = Some new2 →
      ∃ d'', payload_append lxml_compatible ex_header payloads2 d'
             = (Ok (), d'') ∧
             view d'' (pay_load_info ex_header)
             = Some (branch "PayloadInfo"
                       (parts ++
                        [ part_tree "cid:1" "application/pdf" PyNone;
                          part_tree "cid:2" "text/xml" (PyStr "gzip") ]
                        ++ new2)).
Proof.
  apply (payload_append_appends lxml_compatible ltac:(reflexivity)
           ex_class ex_args ex_header ex_doc [ex_pdf; ex_xml_gzip]).
  - apply reach_init. reflexivity.
  - vm_compute. reflexivity.
Defined.

(** C3 as stated fails: no identifier is [None] and the construction
    raises, because lxml refuses an identifier type. *)
Lemma init_refuses_control_character :
  existsb is_None (party_ids ex_args_ctrl) = false ∧
  __init__ lxml_compatible ex_class ex_args_ctrl
  = Raise (ValueError lxml_message).
Proof. split; reflexivity. Qed.

Lemma init_raises_iff_None_or_refused_witness :
  let some_None :=
    a_c1_party_id ex_args = PyNone ∨ a_c2_party_id ex_args = PyNone ∨
    a_c3_party_id ex_args = PyNone ∨ a_c4_party_id ex_args = PyNone in
  (__init__ lxml_compatible ex_class ex_args
   = Raise (ValueError "Parameters must not be None") ↔ some_None) ∧
  ((∃ h d, __init__ lxml_compatible ex_class ex_args = Ok (h, d))
   ↔ ¬ some_None ∧
     forallb (compatible lxml_compatible)
       (written_values (new_header ex_class ex_args)) = true) ∧
  (∀ e, __init__ lxml_compatible ex_class ex_args = Raise e
        → e = ValueError "Parameters must not be None" ∨
          e = ValueError lxml_message).
Proof.
  apply (init_raises_iff_None_or_refused lxml_compatible ltac:(reflexivity)
           ex_class ex_args).
Defined.

(** C7 as stated fails: with the four identifiers empty strings the
    construction succeeds. *)
Lemma init_accepts_empty_party_id :
  In (PyStr "") (party_ids ex_args_empty_ids) ∧
  __init__ lxml_compatible ex_class ex_args_empty_ids
  = Ok (new_header ex_class ex_args_empty_ids,
        skeleton (new_header ex_class ex_args_empty_ids)).
Proof. split; [by left|reflexivity]. Qed.

Lemma init_rejects_None_only_witness :
  (In PyNone (party_ids ex_args_empty_ids)
   → __init__ lxml_compatible ex_class ex_args_empty_ids
     = Raise (ValueError "Parameters must not be None")) ∧
  (Forall (λ v, ∃ s, v = PyStr s) (party_ids ex_args_empty_ids)
   → forallb (compatible lxml_compatible)
       (written_values (new_header ex_class ex_args_empty_ids)) = true
   → __init__ lxml_compatible ex_class ex_args_empty_ids
     = Ok (new_header ex_class ex_args_empty_ids,
           skeleton (new_header ex_class ex_args_empty_ids))).
Proof.
  apply (init_rejects_None_only lxml_compatible ltac:(reflexivity)
           ex_class ex_args_empty_ids).
Defined.

Lemma default_conversationid_shared_witness :
  conversationid ex_header = ex_uuid4 0 ∧
  conversationid (new_header ex_class ex_args_other)
  = conversationid ex_header ∧
  ex_doc !! 12 = Some (mkNode (qn "ConversationId") [] []
                         (PyStr (ex_uuid4 0)) []) ∧
  skeleton (new_header ex_class ex_args_other) !! 12 = ex_doc !! 12.
Proof.
  apply (default_conversationid_shared lxml_compatible
           ex_uuid4 0 ex_args ex_args_other
           ex_header (new_header ex_class ex_args_other) ex_doc
           (skeleton (new_header ex_class ex_args_other)));
    reflexivity.
Defined.

Lemma service_type_is_ignored_witness :
  (∃ t, view ex_doc (element ex_header) = Some t ∧
        subtree [0; 1; 0] t =
        Some (leaf "Service"
                [("type", "urn:oasis:names:tc:ebcore:ebrs:ebms:binding:1.0")]
                (PyStr (service ex_header)))) ∧
  (∃ h', __init__ lxml_compatible ex_class
           (with_service_type ex_args (Some "urn:other"))
         = Ok (h', ex_doc) ∧
         service_type h' = default default_service_type (Some "urn:other") ∧
         ∀ payloads d1,
           payload_append lxml_compatible h' payloads d1
           = payload_append lxml_compatible ex_header payloads d1).
Proof.
  apply (service_type_is_ignored lxml_compatible
           ex_class ex_args (Some "urn:other") ex_header ex_doc).
  reflexivity.
Defined.

Lemma payload_append_missing_mimetype_witness :
  ∃ parts added e d',
    view ex_doc (pay_load_info ex_header) = Some (branch "PayloadInfo" parts) ∧
    payload_append lxml_compatible ex_header
      [ex_pdf; ex_no_mimetype; ex_xml_gzip] ex_doc = (Raise e, d') ∧
    (e = KeyError "href" ∨ e = KeyError "mimetype" ∨
     e = ValueError lxml_message) ∧
    view d' (pay_load_info ex_header)
    = Some (branch "PayloadInfo" (parts ++ added)) ∧
    payload_count ex_header ex_doc = Some (length parts) ∧
    payload_count ex_header d' = Some (length parts + length added) ∧
    ∀ pre payload post new href,
      [ex_pdf; ex_no_mimetype; ex_xml_gzip] = pre ++ payload :: post →
      mapM (part_info_tree lxml_compatible) pre = Some new →
      payload !! "href" = Some href →
      lxml_compatible href = true →
      payload !! "mimetype" = None →
      e = KeyError "mimetype" ∧ added = new ++ [partial_part_tree href].
Proof.
  apply (payload_append_missing_mimetype lxml_compatible ltac:(reflexivity)
           ex_class ex_args ex_header ex_doc
           [ex_pdf; ex_no_mimetype; ex_xml_gzip]).
  - apply reach_init. reflexivity.
  - apply Exists_cons_tl, Exists_cons_hd. vm_compute. reflexivity.
Defined.

(** C4 as stated fails: one payload with [href] and no [mimetype], on a
    new header; the call raises and [PayloadInfo] has a child it had
    not. *)
Lemma payload_append_missing_mimetype_mutates :
  ex_no_mimetype !! "mimetype" = None ∧
  fst (payload_append lxml_compatible ex_header [ex_no_mimetype] ex_doc)
  = Raise (KeyError "mimetype") ∧
  payload_count ex_header ex_doc = Some 0 ∧
  payload_count ex_header
    (snd (payload_append lxml_compatible ex_header [ex_no_mimetype] ex_doc))
  = Some 1.
Proof. vm_compute. auto. Qed.

Lemma payload_append_missing_href_witness :
  ∃ parts new,
    view ex_doc (pay_load_info ex_header) = Some (branch "PayloadInfo" parts) ∧
    mapM (part_info_tree lxml_compatible) [ex_pdf; ex_xml_gzip] = Some new ∧
    payload_append lxml_compatible ex_header
      ([ex_pdf; ex_xml_gzip] ++ ex_no_href :: [ex_pdf]) ex_doc
    = (Raise (KeyError "href"),
       snd (payload_append lxml_compatible ex_header
              [ex_pdf; ex_xml_gzip] ex_doc)) ∧
    view (snd (payload_append lxml_compatible ex_header
                 [ex_pdf; ex_xml_gzip] ex_doc))
         (pay_load_info ex_header)
    = Some (branch "PayloadInfo" (parts ++ new)) ∧
    payload_count ex_header ex_doc = Some (length parts) ∧
    payload_count ex_header
      (snd (payload_append lxml_compatible ex_header
              [ex_pdf; ex_xml_gzip] ex_doc))
    = Some (length parts + length [ex_pdf; ex_xml_gzip]).
Proof.
  apply (payload_append_missing_href lxml_compatible
           ex_class ex_args ex_header ex_doc
           (snd (payload_append lxml_compatible ex_header
                   [ex_pdf; ex_xml_gzip] ex_doc))
           [ex_pdf; ex_xml_gzip] ex_no_href [ex_pdf]).
  - apply reach_init. reflexivity.
  - vm_compute. reflexivity.
  - vm_compute. reflexivity.
Defined.

Lemma payload_append_only_extends_witness :
  ∃ parts added,
    view ex_doc (element ex_header) = Some (messaging_tree ex_header parts) ∧
    view (snd (payload_append lxml_compatible ex_header
                 [ex_pdf; ex_xml_gzip] ex_doc))
         (element ex_header)
    = Some (messaging_tree ex_header (parts ++ added)) ∧
    (fst (payload_append lxml_compatible ex_header
            [ex_pdf; ex_xml_gzip] ex_doc) = Ok ()
     → length added = length [ex_pdf; ex_xml_gzip]).
Proof.
  apply (payload_append_only_extends lxml_compatible
           ex_class ex_args ex_header ex_doc [ex_pdf; ex_xml_gzip]).
  - apply reach_init. reflexivity.
  - apply surjective_pairing.
Defined.

Lemma payload_append_returns_iff_accepted_witness :
  (fst (payload_append lxml_compatible ex_header
          [ex_pdf; ex_bad_mimetype] ex_doc) = Ok ()
   ↔ Forall (accepted_payload lxml_compatible) [ex_pdf; ex_bad_mimetype]) ∧
  (∀ e, fst (payload_append lxml_compatible ex_header
               [ex_pdf; ex_bad_mimetype] ex_doc) = Raise e →
     e = KeyError "href" ∨ e = KeyError "mimetype" ∨
     e = ValueError lxml_message).
Proof.
  apply (payload_append_returns_iff_accepted lxml_compatible
           ltac:(reflexivity) ex_header [ex_pdf; ex_bad_mimetype] ex_doc).
Defined.

Lemma payload_append_same_payloads_witness :
  payload_append lxml_compatible ex_header [ex_pdf_noisy; ex_xml_gzip] ex_doc
  = payload_append lxml_compatible ex_header [ex_pdf; ex_xml_gzip] ex_doc.
Proof.
  apply (payload_append_same_payloads lxml_compatible ex_header
           [ex_pdf_noisy; ex_xml_gzip] [ex_pdf; ex_xml_gzip] ex_doc).
  constructor; [|constructor; [|constructor]].
  - split; [by vm_compute|]. split; [by vm_compute|].
    right. split; by vm_compute.
  - split; [by vm_compute|]. split; [by vm_compute|]. by left.
Defined.

Lemma pay_load_info_under_element_witness :
  ∃ root u user_message kids,
    ex_doc !! element ex_header = Some root ∧
    n_tag root = qn "Messaging" ∧ n_nsmap root = _NS ∧
    n_children root = [u] ∧
    ex_doc !! u = Some user_message ∧
    n_tag user_message = qn "UserMessage" ∧
    last (n_children user_message) = Some (pay_load_info ex_header) ∧
    ex_doc !! pay_load_info ex_header
    = Some (mkNode (qn "PayloadInfo") [] [] PyNone kids).
Proof.
  apply (pay_load_info_under_element lxml_compatible
           ex_class ex_args ex_header ex_doc).
  apply reach_init. reflexivity.
Defined.

Lemma payload_append_after_failure_witness :
  ∃ parts left d2,
    view ex_doc (pay_load_info ex_header)
    = Some (branch "PayloadInfo" parts) ∧
    view (snd (payload_append lxml_compatible ex_header
                 [ex_pdf; ex_no_mimetype; ex_xml_gzip] ex_doc))
         (pay_load_info ex_header)
    = Some (branch "PayloadInfo" (parts ++ left)) ∧
    payload_append lxml_compatible ex_header [ex_pdf; ex_mended; ex_xml_gzip]
      (snd (payload_append lxml_compatible ex_header
              [ex_pdf; ex_no_mimetype; ex_xml_gzip] ex_doc))
    = (Ok (), d2) ∧
    view d2 (pay_load_info ex_header) =
      Some (branch "PayloadInfo"
              (parts ++ left ++
               [ part_tree "cid:1" "application/pdf" PyNone;
                 part_tree "cid:3" "image/png" PyNone;
                 part_tree "cid:2" "text/xml" (PyStr "gzip") ])) ∧
    ∀ pre rest new,
      [ex_pdf; ex_no_mimetype; ex_xml_gzip] = pre ++ rest →
      mapM (part_info_tree lxml_compatible) pre = Some new →
      new `prefix_of` left.
Proof.
  apply (payload_append_after_failure lxml_compatible ltac:(reflexivity)
           ex_class ex_args ex_header ex_doc
           (snd (payload_append lxml_compatible ex_header
                   [ex_pdf; ex_no_mimetype; ex_xml_gzip] ex_doc))
           [ex_pdf; ex_no_mimetype; ex_xml_gzip] (KeyError "mimetype")
           [ex_pdf; ex_mended; ex_xml_gzip]).
  - apply reach_init. reflexivity.
  - vm_compute. reflexivity.
  - vm_compute. reflexivity.
Defined.

Lemma reachable_nodes_well_formed_witness :
  well_formed_node (element ex_header) 10
    (mkNode (qn "Service") [] [("type", service_type_attr)]
            (PyStr default_service) []).
Proof.
  apply (reachable_nodes_well_formed lxml_compatible
           ex_class ex_args ex_header ex_doc).
  - apply reach_init. reflexivity.
  - reflexivity.
Defined.

Lemma payload_append_creates_witness :
  fst (payload_append lxml_compatible ex_header [ex_pdf; ex_xml_gzip] ex_doc)
  = Ok () ∧
  length (snd (payload_append lxml_compatible ex_header
                 [ex_pdf; ex_xml_gzip] ex_doc))
  = length ex_doc + sum_list (elements_of_payload <$> [ex_pdf; ex_xml_gzip]).
Proof.
  apply (payload_append_creates lxml_compatible ltac:(reflexivity)
           ex_header [ex_pdf; ex_xml_gzip] ex_doc).
  repeat apply Forall_cons_2; try apply Forall_nil_2.
  - exists "cid:1", "application/pdf". vm_compute. auto 10.
  - exists "cid:2", "text/xml". vm_compute. auto 10.
Defined.
